(** * InkSight: graphological feature extraction and rule-based scoring

    A shallow embedding of [src/graphology_module.py]
    ([extract_graphological_features], [get_personality_profile]) and of the
    two lines of [app.py] that chain them.

    Modelling conventions.
    - Python numbers (the [int] default [0], [float] literals, the
      [np.float64] results of [np.mean]/[np.median]) are exact rationals
      [Q]; binary64 rounding is not modelled.  Pixel coordinates returned by
      [cv2.boundingRect] are integers [Z].
    - A Python [dict] is an insertion-ordered association list; a dict
      object lives in a heap ([gmap] from locations to dicts) and is handled
      through its location, so that in-place mutation and aliasing are
      visible.
    - Python code is written in a state-and-exception monad [M] over the
      heap.
    - OpenCV and the least-squares solver behind [np.polyfit] are an
      interface ([Vision]); the code is verified for every implementation.

    Further on, [create_spider_chart] of the same module and
    [preprocess_for_graphology] and [preprocess_for_ocr] of
    [src/preprocessing_module.py] are embedded the same way, their library
    calls behind interfaces of their own. *)

From stdpp Require Import gmap strings list fin_maps.
From Stdlib Require Import QArith Qabs Lqa Sorted.

Local Open Scope string_scope.

(** ** Numbers *)

Module Num.

Definition ltb (x y : Q) : bool := negb (Qle_bool y x).
Definition gtb (x y : Q) : bool := ltb y x.
Definition leb (x y : Q) : bool := Qle_bool x y.

(** [np.clip(x, lo, hi)] on a scalar. *)
Definition clip (x lo hi : Q) : Q :=
  if ltb x lo then lo else if gtb x hi then hi else x.

End Num.

(** ** Python values, dicts and the heap *)

Inductive value : Type :=
  | VNum (x : Q)
  | VStr (s : string).

(** Insertion-ordered dictionary with string keys. *)
Definition dict : Type := list (string * value).

Fixpoint dget (d : dict) (k : string) : option value :=
  match d with
  | [] => None
  | (k', v) :: d' => if String.eqb k k' then Some v else dget d' k
  end.

(** [d[k] = v]: overwrite in place, or append a new key at the end. *)
Fixpoint dset (k : string) (v : value) (d : dict) : dict :=
  match d with
  | [] => [(k, v)]
  | (k', v') :: d' =>
      if String.eqb k k' then (k, v) :: d' else (k', v') :: dset k v d'
  end.

Definition dkeys (d : dict) : list string := map fst d.

Abbreviation loc := positive.
Abbreviation heap := (gmap positive dict).

Definition fresh_loc (σ : heap) : loc := fresh (dom σ).

Inductive exn : Type :=
  | KeyError (k : string)
  | TypeError
  | IndexError
  | NanResult       (* a statistic of an empty sample: numpy yields nan *)
  | NoObject.       (* a location that is not allocated *)

(** ** Exceptions without state: list indexing and numpy statistics *)

Definition E (A : Type) : Type := (exn + A)%type.

#[export] Instance E_ret : MRet E := λ A a, inr a.
#[export] Instance E_bind : MBind E := λ A B f m,
  match m with
  | inl e => inl e
  | inr a => f a
  end.

Definition throw {A} (e : exn) : E A := inl e.

(** The result of a computation, or [dflt] if it raised. *)
Definition value_or {A} (dflt : A) (e : E A) : A :=
  match e with
  | inr a => a
  | inl _ => dflt
  end.

(** [xs[i]] for [0 <= i]. *)
Definition index {A} (xs : list A) (i : nat) : E A :=
  match xs !! i with
  | Some x => mret x
  | None => throw IndexError
  end.

(** [for x in xs: s = body s x], for a loop that updates local variables. *)
Fixpoint fold_e {A S} (body : S → A → E S) (s : S) (xs : list A) : E S :=
  match xs with
  | [] => mret s
  | x :: xs' => s' ← body s x; fold_e body s' xs'
  end.

(** ** The monad of Python code: heap state and exceptions *)

Definition M (A : Type) : Type := heap → exn + A * heap.

#[export] Instance M_ret : MRet M := λ A a σ, inr (a, σ).
#[export] Instance M_bind : MBind M := λ A B f m σ,
  match m σ with
  | inl e => inl e
  | inr (a, σ') => f a σ'
  end.

Definition raise {A} (e : exn) : M A := λ _, inl e.

(** [{...}]: allocate a new dict object. *)
Definition new_dict (d : dict) : M loc := λ σ,
  let l := fresh_loc σ in inr (l, <[l := d]> σ).

(** [o[k]] *)
Definition getitem (l : loc) (k : string) : M value := λ σ,
  match σ !! l with
  | None => inl NoObject
  | Some d =>
      match dget d k with
      | None => inl (KeyError k)
      | Some v => inr (v, σ)
      end
  end.

(** [o[k] = v] *)
Definition setitem (l : loc) (k : string) (v : value) : M unit := λ σ,
  match σ !! l with
  | None => inl NoObject
  | Some d => inr (tt, <[l := dset k v d]> σ)
  end.

(** [list(o.keys())], the keys a [for k in o] loop visits. *)
Definition keys (l : loc) : M (list string) := λ σ,
  match σ !! l with
  | None => inl NoObject
  | Some d => inr (dkeys d, σ)
  end.

(** A value used as a number (in a comparison or in arithmetic). *)
Definition as_num (v : value) : M Q :=
  match v with
  | VNum x => mret x
  | VStr _ => raise TypeError
  end.

Definition getnum (l : loc) (k : string) : M Q := getitem l k ≫= as_num.

(** An exception-only computation run inside [M]. *)
Definition lift {A} (e : E A) : M A := λ σ,
  match e with
  | inl x => inl x
  | inr a => inr (a, σ)
  end.

(** [for x in xs: body x] *)
Fixpoint for_each {A} (xs : list A) (body : A → M unit) : M unit :=
  match xs with
  | [] => mret tt
  | x :: xs' => body x;; for_each xs' body
  end.

(** ** Feature vectors and trait scores as records

    The functional view of the two dicts the code passes around: [fdict] is
    the dict [extract_graphological_features] returns, [qdict] the
    quantitative dict [get_personality_profile] returns. *)

Record FeatureVector : Type := {
  pressure : Q;
  letter_size : Q;
  slant : Q;
  baseline_slope : Q;
  word_spacing : Q;
  line_spacing : Q;
  left_margin : Q;
}.

Definition fdict (fv : FeatureVector) : dict :=
  [ ("pressure", VNum (pressure fv)); ("letter_size", VNum (letter_size fv));
    ("slant", VNum (slant fv)); ("baseline_slope", VNum (baseline_slope fv));
    ("word_spacing", VNum (word_spacing fv));
    ("line_spacing", VNum (line_spacing fv));
    ("left_margin", VNum (left_margin fv)) ].

Record TraitScores : Type := {
  Sociability : Q;
  Focus : Q;
  Intensity : Q;
  Optimism : Q;
  Discipline : Q;
  Spontaneity : Q;
}.

Definition zero_features : FeatureVector :=
  {| pressure := 0; letter_size := 0; slant := 0; baseline_slope := 0;
     word_spacing := 0; line_spacing := 0; left_margin := 0 |}.

Definition qdict (t : TraitScores) : dict :=
  [ ("Sociability", VNum (Sociability t)); ("Focus", VNum (Focus t));
    ("Intensity", VNum (Intensity t)); ("Optimism", VNum (Optimism t));
    ("Discipline", VNum (Discipline t));
    ("Spontaneity", VNum (Spontaneity t)) ].

(** ** The personality scorer: [get_personality_profile] *)

Module Scorer.

Local Open Scope Q_scope.

Definition quantitative_init : dict :=
  [ ("Sociability", VNum 0.5); ("Focus", VNum 0.5); ("Intensity", VNum 0.5);
    ("Optimism", VNum 0.5); ("Discipline", VNum 0.5);
    ("Spontaneity", VNum 0.5) ].

(** 1. Sociability vs. Reserved (from slant and word spacing). *)
Definition rule_sociability (features quantitative descriptive : loc)
  : M unit :=
  (slant ← getnum features "slant";
   if Num.gtb slant 5 then
     setitem quantitative "Sociability" (VNum 0.8);;
     setitem descriptive "Outlook"
       (VStr "Sociable, expressive, approach-oriented.")
   else
     slant ← getnum features "slant";
     if Num.ltb slant (-5) then
       setitem quantitative "Sociability" (VNum 0.2);;
       setitem descriptive "Outlook"
         (VStr "Reserved, withdrawn, avoids conflict.")
     else
       setitem quantitative "Sociability" (VNum 0.4);;
       setitem descriptive "Outlook"
         (VStr "Controlled, independent, balanced."));;
  word_spacing ← getnum features "word_spacing";
  letter_size ← getnum features "letter_size";
  if Num.gtb word_spacing letter_size then
    s ← getnum quantitative "Sociability";
    setitem quantitative "Sociability" (VNum (s - 0.1));;
    setitem descriptive "Social Type" (VStr "Values space, independent.")
  else
    word_spacing ← getnum features "word_spacing";
    letter_size ← getnum features "letter_size";
    if Num.ltb word_spacing (letter_size * 0.5) then
      s ← getnum quantitative "Sociability";
      setitem quantitative "Sociability" (VNum (s + 0.2));;
      setitem descriptive "Social Type" (VStr "Sociable, seeks closeness.")
    else mret tt.

(** 2. Focus vs. Assertive (from letter size). *)
Definition rule_focus (features quantitative descriptive : loc) : M unit :=
  letter_size ← getnum features "letter_size";
  if Num.gtb letter_size 50 then
    setitem quantitative "Focus" (VNum 0.3);;
    setitem descriptive "Focus"
      (VStr "Outgoing, assertive, big-picture oriented.")
  else
    letter_size ← getnum features "letter_size";
    if Num.ltb letter_size 25 then
      setitem quantitative "Focus" (VNum 0.9);;
      setitem descriptive "Focus"
        (VStr "Focused, introverted, detail-oriented.")
    else
      setitem descriptive "Focus" (VStr "Balanced and adaptable.").

(** 3. Intensity vs. Sensitivity (from pressure). *)
Definition rule_intensity (features quantitative descriptive : loc)
  : M unit :=
  pressure ← getnum features "pressure";
  if Num.ltb pressure 120 then
    setitem quantitative "Intensity" (VNum 0.8);;
    setitem descriptive "Intensity" (VStr "Intense, forceful, high energy.")
  else
    pressure ← getnum features "pressure";
    if Num.gtb pressure 180 then
      setitem quantitative "Intensity" (VNum 0.2);;
      setitem descriptive "Intensity"
        (VStr "Sensitive, empathetic, low arousal.")
    else
      setitem descriptive "Intensity" (VStr "Balanced emotional intensity.").

(** 4. Optimism vs. Pessimism (from the baseline). *)
Definition rule_optimism (features quantitative descriptive : loc)
  : M unit :=
  baseline_slope ← getnum features "baseline_slope";
  if Num.ltb baseline_slope (-0.05) then
    setitem quantitative "Optimism" (VNum 0.2);;
    setitem descriptive "Mood" (VStr "Pessimistic, tired, or discouraged.")
  else
    baseline_slope ← getnum features "baseline_slope";
    if Num.gtb baseline_slope 0.05 then
      setitem quantitative "Optimism" (VNum 0.8);;
      setitem descriptive "Mood" (VStr "Optimistic, energetic, ambitious.")
    else
      setitem quantitative "Optimism" (VNum 0.5);;
      setitem descriptive "Mood" (VStr "Steady, balanced, and stable.").

(** 5. Discipline (from baseline and slant).  A chained comparison
    [a <= e <= b] evaluates [e] once. *)
Definition rule_discipline (features quantitative : loc) : M unit :=
  (baseline_slope ← getnum features "baseline_slope";
   if Num.leb (-0.05) baseline_slope && Num.leb baseline_slope 0.05 then
     setitem quantitative "Discipline" (VNum 0.8)
   else
     setitem quantitative "Discipline" (VNum 0.3));;
  slant ← getnum features "slant";
  if Num.leb (-5) slant && Num.leb slant 5 then
    d ← getnum quantitative "Discipline";
    setitem quantitative "Discipline" (VNum (d + 0.2))
  else mret tt.

(** 6. Spontaneity (from the left margin). *)
Definition rule_spontaneity (features quantitative descriptive : loc)
  : M unit :=
  left_margin ← getnum features "left_margin";
  if Num.gtb left_margin 40 then
    setitem quantitative "Spontaneity" (VNum 0.2);;
    setitem descriptive "Planning"
      (VStr "Cautious, planned, looks to the future.")
  else
    left_margin ← getnum features "left_margin";
    if Num.ltb left_margin 20 then
      setitem quantitative "Spontaneity" (VNum 0.9);;
      setitem descriptive "Planning"
        (VStr "Spontaneous, impulsive, lives in the moment.")
    else mret tt.

(** Ensure all scores are capped between 0.1 and 1.0. *)
Definition clamp_scores (quantitative : loc) : M unit :=
  ks ← keys quantitative;
  for_each ks (λ k,
    v ← getnum quantitative k;
    setitem quantitative k (VNum (Num.clip v 0.1 1.0))).

Definition get_personality_profile (features : loc) : M (loc * loc) :=
  quantitative ← new_dict quantitative_init;
  descriptive ← new_dict [];
  rule_sociability features quantitative descriptive;;
  rule_focus features quantitative descriptive;;
  rule_intensity features quantitative descriptive;;
  rule_optimism features quantitative descriptive;;
  rule_discipline features quantitative;;
  rule_spontaneity features quantitative descriptive;;
  clamp_scores quantitative;;
  mret (quantitative, descriptive).

(** *** Functional model of the scorer

    What the rules compute, trait by trait; [get_personality_profile_run]
    below proves that the code above computes exactly this. *)

Definition sociability_score (fv : FeatureVector) : Q :=
  let s := if Num.gtb (slant fv) 5 then 0.8
           else if Num.ltb (slant fv) (-5) then 0.2 else 0.4 in
  if Num.gtb (word_spacing fv) (letter_size fv) then s - 0.1
  else if Num.ltb (word_spacing fv) (letter_size fv * 0.5) then s + 0.2
  else s.

Definition focus_score (fv : FeatureVector) (old : Q) : Q :=
  if Num.gtb (letter_size fv) 50 then 0.3
  else if Num.ltb (letter_size fv) 25 then 0.9 else old.

Definition intensity_score (fv : FeatureVector) (old : Q) : Q :=
  if Num.ltb (pressure fv) 120 then 0.8
  else if Num.gtb (pressure fv) 180 then 0.2 else old.

Definition optimism_score (fv : FeatureVector) : Q :=
  if Num.ltb (baseline_slope fv) (-0.05) then 0.2
  else if Num.gtb (baseline_slope fv) 0.05 then 0.8 else 0.5.

Definition discipline_score (fv : FeatureVector) : Q :=
  let d := if Num.leb (-0.05) (baseline_slope fv)
              && Num.leb (baseline_slope fv) 0.05
           then 0.8 else 0.3 in
  if Num.leb (-5) (slant fv) && Num.leb (slant fv) 5 then d + 0.2 else d.

Definition spontaneity_score (fv : FeatureVector) (old : Q) : Q :=
  if Num.gtb (left_margin fv) 40 then 0.2
  else if Num.ltb (left_margin fv) 20 then 0.9 else old.

Definition scores (fv : FeatureVector) : TraitScores :=
  {| Sociability := Num.clip (sociability_score fv) 0.1 1.0;
     Focus := Num.clip (focus_score fv 0.5) 0.1 1.0;
     Intensity := Num.clip (intensity_score fv 0.5) 0.1 1.0;
     Optimism := Num.clip (optimism_score fv) 0.1 1.0;
     Discipline := Num.clip (discipline_score fv) 0.1 1.0;
     Spontaneity := Num.clip (spontaneity_score fv 0.5) 0.1 1.0 |}.

Definition sociability_labels (fv : FeatureVector) (dd : dict) : dict :=
  let dd :=
    dset "Outlook"
      (VStr (if Num.gtb (slant fv) 5
             then "Sociable, expressive, approach-oriented."
             else if Num.ltb (slant fv) (-5)
             then "Reserved, withdrawn, avoids conflict."
             else "Controlled, independent, balanced.")) dd in
  if Num.gtb (word_spacing fv) (letter_size fv)
  then dset "Social Type" (VStr "Values space, independent.") dd
  else if Num.ltb (word_spacing fv) (letter_size fv * 0.5)
  then dset "Social Type" (VStr "Sociable, seeks closeness.") dd
  else dd.

Definition focus_labels (fv : FeatureVector) (dd : dict) : dict :=
  dset "Focus"
    (VStr (if Num.gtb (letter_size fv) 50
           then "Outgoing, assertive, big-picture oriented."
           else if Num.ltb (letter_size fv) 25
           then "Focused, introverted, detail-oriented."
           else "Balanced and adaptable.")) dd.

Definition intensity_labels (fv : FeatureVector) (dd : dict) : dict :=
  dset "Intensity"
    (VStr (if Num.ltb (pressure fv) 120
           then "Intense, forceful, high energy."
           else if Num.gtb (pressure fv) 180
           then "Sensitive, empathetic, low arousal."
           else "Balanced emotional intensity.")) dd.

Definition optimism_labels (fv : FeatureVector) (dd : dict) : dict :=
  dset "Mood"
    (VStr (if Num.ltb (baseline_slope fv) (-0.05)
           then "Pessimistic, tired, or discouraged."
           else if Num.gtb (baseline_slope fv) 0.05
           then "Optimistic, energetic, ambitious."
           else "Steady, balanced, and stable.")) dd.

Definition spontaneity_labels (fv : FeatureVector) (dd : dict) : dict :=
  if Num.gtb (left_margin fv) 40
  then dset "Planning" (VStr "Cautious, planned, looks to the future.") dd
  else if Num.ltb (left_margin fv) 20
  then dset "Planning"
         (VStr "Spontaneous, impulsive, lives in the moment.") dd
  else dd.

Definition descriptions (fv : FeatureVector) : dict :=
  spontaneity_labels fv
    (optimism_labels fv
       (intensity_labels fv (focus_labels fv (sociability_labels fv [])))).

(** Extreme feature values: [pressure=0], [slant=90],
    [left_margin=10000]. *)
Definition adversarial_features : FeatureVector :=
  {| pressure := 0; letter_size := 0; slant := 90; baseline_slope := 0;
     word_spacing := 0; line_spacing := 0; left_margin := 10000 |}.

(** The profile of the all-default feature vector: as the specification
    states it, and as the rules compute it. *)
Definition blank_profile_claimed : TraitScores :=
  {| Sociability := 0.4; Focus := 0.5; Intensity := 0.5; Optimism := 0.5;
     Discipline := 0.5; Spontaneity := 0.5 |}.

Definition blank_profile : TraitScores :=
  {| Sociability := 0.4; Focus := 0.9; Intensity := 0.8; Optimism := 0.5;
     Discipline := 1.0; Spontaneity := 0.9 |}.

(** The scenario [{slant:8, word_spacing:5, letter_size:30, pressure:100,
    baseline_slope:0.08, left_margin:50, line_spacing:0}]: its profile as
    the specification states it, and as the rules compute it. *)
Definition scenario_features : FeatureVector :=
  {| pressure := 100; letter_size := 30; slant := 8; baseline_slope := 0.08;
     word_spacing := 5; line_spacing := 0; left_margin := 50 |}.

Definition scenario_profile_claimed : TraitScores :=
  {| Sociability := 0.8; Focus := 0.5; Intensity := 0.8; Optimism := 0.8;
     Discipline := 0.3; Spontaneity := 0.2 |}.

Definition scenario_profile : TraitScores :=
  {| Sociability := 1.0; Focus := 0.5; Intensity := 0.8; Optimism := 0.8;
     Discipline := 0.3; Spontaneity := 0.2 |}.

(** The dict [fd] binds the six keys the rules read to the numbers of
    [fv]; neither ["line_spacing"] nor any other key is asked for. *)
Definition reads (fd : dict) (fv : FeatureVector) : Prop :=
  dget fd "slant" = Some (VNum (slant fv)) ∧
  dget fd "word_spacing" = Some (VNum (word_spacing fv)) ∧
  dget fd "letter_size" = Some (VNum (letter_size fv)) ∧
  dget fd "pressure" = Some (VNum (pressure fv)) ∧
  dget fd "baseline_slope" = Some (VNum (baseline_slope fv)) ∧
  dget fd "left_margin" = Some (VNum (left_margin fv)).

(** The keys in the order the rules first read them. *)
Definition read_order : list string :=
  [ "slant"; "word_spacing"; "letter_size"; "pressure"; "baseline_slope";
    "left_margin" ].

(** The heap while the rules run: the caller's heap [σ] extended with the
    quantitative dict at [q] and the descriptive dict at [d]. *)
Definition frame (σ : heap) (q d : loc) (qd dd : dict) : heap :=
  <[d := dd]> (<[q := qd]> σ).

(** [get_personality_profile] returns a quantitative dict holding the
    scores [t]. *)
Definition returns_scores (σ : heap) (features : loc) (t : TraitScores)
  : Prop :=
  ∃ q d σ' qd,
    get_personality_profile features σ = inr ((q, d), σ') ∧
    σ' !! q = Some qd ∧
    dkeys qd = dkeys quantitative_init ∧
    ∃ t', qd = qdict t' ∧
      Sociability t' == Sociability t ∧ Focus t' == Focus t ∧
      Intensity t' == Intensity t ∧ Optimism t' == Optimism t ∧
      Discipline t' == Discipline t ∧ Spontaneity t' == Spontaneity t.

End Scorer.

(** ** numpy and list helpers used by the extractor *)

Module Np.

Local Open Scope Q_scope.

(** Stable insertion sort, the order [list.sort] and [sorted] produce. *)
Fixpoint insert_by {A} (le : A → A → bool) (a : A) (l : list A) : list A :=
  match l with
  | [] => [a]
  | b :: l' => if le a b then a :: b :: l' else b :: insert_by le a l'
  end.

Fixpoint sort_by {A} (le : A → A → bool) (l : list A) : list A :=
  match l with
  | [] => []
  | a :: l' => insert_by le a (sort_by le l')
  end.

Definition is_empty {A} (l : list A) : bool :=
  match l with [] => true | _ => false end.

(** The median of a non-empty sample: the middle element of the sorted
    sample, or the mean of the two middle ones. *)
Definition median_of (l : list Q) : Q :=
  let s := sort_by Qle_bool l in
  let n := length s in
  if Nat.even n
  then (nth (n / 2 - 1) s 0 + nth (n / 2) s 0) / 2
  else nth (n / 2) s 0.

(** [np.median]: nan on an empty sample. *)
Definition median (l : list Q) : E Q :=
  if is_empty l then throw NanResult else mret (median_of l).

Definition sumZ (l : list Z) : Z := fold_right Z.add 0%Z l.

Definition mean_of (l : list Z) : Q :=
  inject_Z (sumZ l) / inject_Z (Z.of_nat (length l)).

(** [np.mean] of a [uint8] array: nan on an empty one. *)
Definition mean (l : list Z) : E Q :=
  if is_empty l then throw NanResult else mret (mean_of l).

(** [a.any()]: some entry is non-zero. *)
Definition any (l : list Z) : bool := existsb (λ p, negb (p =? 0)%Z) l.

(** [np.diff]: successive differences. *)
Fixpoint diff (l : list Q) : list Q :=
  match l with
  | a :: (b :: _) as t => (b - a) :: diff t
  | _ => []
  end.

End Np.

(** ** Images and the vision interface *)

(** A single-channel [uint8] image, row by row. *)
Definition image : Type := list (list Z).

(** A bounding box [(x, y, w, h)]. *)
Definition bbox : Type := (Z * Z * Z * Z)%type.

Definition bx (b : bbox) : Z := b.1.1.1.
Definition by_ (b : bbox) : Z := b.1.1.2.
Definition bw (b : bbox) : Z := b.1.2.
Definition bh (b : bbox) : Z := b.2.

(** [gray_image[binary_image == 255]]: the gray values under the mask, in
    row-major order (the two arrays have the same shape). *)
Definition mask_select (gray_image binary_image : image) : list Z :=
  concat (zip_with (λ grow brow,
    flat_map (λ gb : Z * Z, if (gb.2 =? 255)%Z then [gb.1] else [])
             (zip grow brow)) gray_image binary_image).

(** The library calls of the extractor.
    - [findContours img] is
      [cv2.findContours(img, RETR_EXTERNAL, CHAIN_APPROX_SIMPLE)[0]];
    - [dilate img] is [cv2.dilate(img, 5x5 rectangle, iterations=1)];
    - [minAreaRect_angle c] is [cv2.minAreaRect(c)[-1]];
    - [lstsq_line xs ys] is the pair [(m, b)] that [np.polyfit(xs, ys, 1)]
      returns on a non-empty sample. *)
Class Vision : Type := {
  contour : Type;
  findContours : image → list contour;
  dilate : image → image;
  boundingRect : contour → bbox;
  minAreaRect_angle : contour → Q;
  lstsq_line : list Q → list Q → Q * Q;
}.

(** ** The feature extractor: [extract_graphological_features] *)

Module Extractor.

Local Open Scope Q_scope.
Local Open Scope list_scope.

Definition features_init : dict :=
  [ ("pressure", VNum 0); ("letter_size", VNum 0); ("slant", VNum 0);
    ("baseline_slope", VNum 0); ("word_spacing", VNum 0);
    ("line_spacing", VNum 0); ("left_margin", VNum 0) ].

(** The local lists filled by the loop over the word contours. *)
Record WordScan : Type := {
  word_bboxes : list bbox;
  heights : list Z;
  word_angles : list Q;
}.

(** The local variables of the loop that groups words by line. *)
Record Grouping : Type := {
  lines_of_words : list (list bbox);
  current_line : list bbox;
  current_y : Z;
}.

(** The local lists filled by the loop over the lines. *)
Record LineStats : Type := {
  left_margins : list Z;
  word_gaps : list Z;
  baseline_slopes : list Q;
  line_y_coords : list Q;
}.

Definition no_words : WordScan :=
  {| word_bboxes := []; heights := []; word_angles := [] |}.

Definition no_stats : LineStats :=
  {| left_margins := []; word_gaps := []; baseline_slopes := [];
     line_y_coords := [] |}.

(** Sort keys [lambda b: (b[1], b[0])] and [lambda b: b[0]]. *)
Definition le_yx (a b : bbox) : bool :=
  (by_ a <? by_ b)%Z || ((by_ a =? by_ b)%Z && (bx a <=? bx b)%Z).

Definition le_x (a b : bbox) : bool := (bx a <=? bx b)%Z.

(** One iteration of [for (x, y, w, h) in word_bboxes]. *)
Definition group_word (g : Grouping) (b : bbox) : Grouping :=
  let '(x, y, w, h) := b in
  if Num.gtb (inject_Z (Z.abs (y - current_y g))) (inject_Z h * 0.7) then
    {| lines_of_words :=
         lines_of_words g ++ [Np.sort_by le_x (current_line g)];
       current_line := [(x, y, w, h)];
       current_y := y |}
  else
    {| lines_of_words := lines_of_words g;
       current_line := current_line g ++ [(x, y, w, h)];
       current_y := current_y g |}.

(** Group words by line; [current_y = word_bboxes[0][1]] to start with. *)
Definition group_lines (word_bboxes : list bbox) : E (list (list bbox)) :=
  first ← index word_bboxes 0;
  let g := fold_left group_word word_bboxes
             {| lines_of_words := []; current_line := [];
                current_y := by_ first |} in
  mret (lines_of_words g ++ [Np.sort_by le_x (current_line g)]).

(** One iteration of [for i in range(len(line) - 1)]. *)
Definition gap_step (line : list bbox) (word_gaps : list Z) (i : nat)
  : E (list Z) :=
  bbox1 ← index line i;
  bbox2 ← index line (i + 1);
  let gap := (bx bbox2 - (bx bbox1 + bw bbox1))%Z in
  mret (if (0 <? gap)%Z then word_gaps ++ [gap] else word_gaps).

(** The lines that get a baseline fit: those with at least two words. *)
Definition qualifying (ls : list (list bbox)) : list (list bbox) :=
  List.filter (λ line, (1 <? length line)%nat) ls.

(** The left-margin sample: the [x] of the first word of each line. *)
Definition first_xs (ls : list (list bbox)) : list Z :=
  flat_map (λ line, match line with [] => [] | b :: _ => [bx b] end) ls.

Section WithVision.

Context {V : Vision}.

(** One iteration of [for c in word_contours]. *)
Definition scan_word (s : WordScan) (c : contour) : WordScan :=
  let '(x, y, w, h) := boundingRect c in
  if (10 <? w)%Z && (10 <? h)%Z then
    let angle := minAreaRect_angle c in
    let angle := if (w <? h)%Z then 90 + angle else angle in
    {| word_bboxes := word_bboxes s ++ [(x, y, w, h)];
       heights := heights s ++ [h];
       word_angles :=
         if Num.ltb (Qabs angle) 45 then word_angles s ++ [angle]
         else word_angles s |}
  else s.

Definition scan_words (word_contours : list contour) : WordScan :=
  fold_left scan_word word_contours no_words.

(** [np.polyfit(xs, ys, 1)]: a [TypeError] on an empty sample or on samples
    of different lengths. *)
Definition polyfit1 (xs ys : list Q) : E (Q * Q) :=
  if Np.is_empty xs || negb (length xs =? length ys)%nat
  then throw TypeError
  else mret (lstsq_line xs ys).

(** One iteration of [for line in lines_of_words]. *)
Definition line_step (s : LineStats) (line : list bbox) : E LineStats :=
  if Np.is_empty line then mret s
  else
    first ← index line 0;
    let left_margins := left_margins s ++ [bx first] in
    word_gaps ← fold_e (gap_step line) (word_gaps s)
                  (seq 0 (length line - 1));
    let points_x :=
      map (λ b, inject_Z (bx b) + inject_Z (bw b) / 2) line in
    let points_y := map (λ b, inject_Z (by_ b + bh b)) line in
    if (1 <? length points_x)%nat then
      mb ← polyfit1 points_x points_y;
      y ← Np.median points_y;
      mret {| left_margins := left_margins;
              word_gaps := word_gaps;
              baseline_slopes := baseline_slopes s ++ [mb.1];
              line_y_coords := line_y_coords s ++ [y] |}
    else
      mret {| left_margins := left_margins;
              word_gaps := word_gaps;
              baseline_slopes := baseline_slopes s;
              line_y_coords := line_y_coords s |}.

Definition extract_graphological_features
    (gray_image binary_image : image) (lines : list image) : M loc :=
  features ← new_dict features_init;
  let contours := findContours binary_image in
  if Np.is_empty contours then mret features
  else
    (* 1. pen pressure *)
    let ink_pixels := mask_select gray_image binary_image in
    (if Np.any ink_pixels then
       p ← lift (Np.mean ink_pixels);
       setitem features "pressure" (VNum p)
     else mret tt);;
    (* 2. letter size and slant *)
    let dilated_words := dilate binary_image in
    let word_contours := findContours dilated_words in
    let scan := scan_words word_contours in
    (if negb (Np.is_empty (heights scan)) then
       m ← lift (Np.median (map inject_Z (heights scan)));
       setitem features "letter_size" (VNum m)
     else mret tt);;
    (if negb (Np.is_empty (word_angles scan)) then
       m ← lift (Np.median (word_angles scan));
       setitem features "slant" (VNum m)
     else mret tt);;
    let word_bboxes := Np.sort_by le_yx (word_bboxes scan) in
    (* 3. margins, spacing and baseline *)
    if Np.is_empty word_bboxes then mret features
    else
      lines_of_words ← lift (group_lines word_bboxes);
      stats ← lift (fold_e line_step no_stats lines_of_words);
      (if negb (Np.is_empty (word_gaps stats)) then
         m ← lift (Np.median (map inject_Z (word_gaps stats)));
         setitem features "word_spacing" (VNum m)
       else mret tt);;
      (if negb (Np.is_empty (left_margins stats)) then
         m ← lift (Np.median (map inject_Z (left_margins stats)));
         setitem features "left_margin" (VNum m)
       else mret tt);;
      (if negb (Np.is_empty (baseline_slopes stats)) then
         m ← lift (Np.median (baseline_slopes stats));
         setitem features "baseline_slope" (VNum m)
       else mret tt);;
      let line_gaps := Np.diff (line_y_coords stats) in
      (if (0 <? length line_gaps)%nat then
         m ← lift (Np.median line_gaps);
         setitem features "line_spacing" (VNum m)
       else mret tt);;
      mret features.

(** *** Functional model of the extractor

    The feature values in terms of the samples the loops collect;
    [extract_graphological_features_run] below proves that the code above
    stores exactly these in the dict it returns. *)

(** A feature set from a sample: its median, or the initial [0] when the
    sample is empty and the assignment is skipped. *)
Definition median_or_zero (l : list Q) : Q :=
  if Np.is_empty l then 0 else Np.median_of l.

Definition words_of (binary_image : image) : WordScan :=
  scan_words (findContours (dilate binary_image)).

Definition sorted_boxes (binary_image : image) : list bbox :=
  Np.sort_by le_yx (word_bboxes (words_of binary_image)).

Definition lines_of (binary_image : image) : list (list bbox) :=
  value_or [] (group_lines (sorted_boxes binary_image)).

Definition stats_of (binary_image : image) : LineStats :=
  value_or no_stats (fold_e line_step no_stats (lines_of binary_image)).

Definition pressure_of (gray_image binary_image : image) : Q :=
  let ink_pixels := mask_select gray_image binary_image in
  if Np.any ink_pixels then Np.mean_of ink_pixels else 0.

Definition features_of (gray_image binary_image : image) : FeatureVector :=
  if Np.is_empty (findContours binary_image) then zero_features
  else
    let scan := words_of binary_image in
    let stats := stats_of binary_image in
    let located := negb (Np.is_empty (sorted_boxes binary_image)) in
    {| pressure := pressure_of gray_image binary_image;
       letter_size := median_or_zero (map inject_Z (heights scan));
       slant := median_or_zero (word_angles scan);
       baseline_slope :=
         if located then median_or_zero (baseline_slopes stats) else 0;
       word_spacing :=
         if located then median_or_zero (map inject_Z (word_gaps stats))
         else 0;
       line_spacing :=
         if located then median_or_zero (Np.diff (line_y_coords stats))
         else 0;
       left_margin :=
         if located then median_or_zero (map inject_Z (left_margins stats))
         else 0 |}.

(** The slant sample as the specification words it: of the boxes that pass
    the size filter, the angle with 90 added exactly when the box is taller
    than wide, kept when its absolute value is below 45. *)
Definition retained (c : contour) : bool :=
  (10 <? bw (boundingRect c))%Z && (10 <? bh (boundingRect c))%Z.

Definition normalized_angle (c : contour) : Q :=
  if (bw (boundingRect c) <? bh (boundingRect c))%Z
  then 90 + minAreaRect_angle c
  else minAreaRect_angle c.

Definition slant_sample (word_contours : list contour) : list Q :=
  List.filter (λ a, Num.ltb (Qabs a) 45)
    (map normalized_angle (List.filter retained word_contours)).

End WithVision.

End Extractor.

(** ** The pipeline of [app.py] *)

Module App.

Import Scorer Extractor.

(** [features = extract_graphological_features(gray_img, bin_img, lines);
    q_profile, d_profile = get_personality_profile(features)] *)
Definition analyse {V : Vision} (gray_img bin_img : image)
    (lines : list image) : M (loc * loc * loc) :=
  features ← extract_graphological_features gray_img bin_img lines;
  profile ← get_personality_profile features;
  mret (features, profile.1, profile.2).

End App.

(** ** A small vision library for examples

    It takes all the ink of an image (the pixels equal to 255) for one
    upright blob: the only contour is the bounding box of the ink. *)

Module OneBlob.

Definition ink_points (img : image) : list (Z * Z) :=
  concat (imap (λ y row,
    flat_map (λ xp : nat * Z,
                if (xp.2 =? 255)%Z then [(Z.of_nat xp.1, Z.of_nat y)] else [])
             (imap (λ x p, (x, p)) row)) img).

Definition ink_box (img : image) : list bbox :=
  match ink_points img with
  | [] => []
  | (x0, y0) :: ps =>
      let xmin := fold_right Z.min x0 (map fst ps) in
      let xmax := fold_right Z.max x0 (map fst ps) in
      let ymin := fold_right Z.min y0 (map snd ps) in
      let ymax := fold_right Z.max y0 (map snd ps) in
      [ (xmin, ymin, xmax - xmin + 1, ymax - ymin + 1)%Z ]
  end.

Definition vision : Vision :=
  {| contour := bbox;
     findContours := ink_box;
     dilate := λ img, img;
     boundingRect := λ c, c;
     minAreaRect_angle := λ _, 0%Q;
     lstsq_line := λ _ _, (0%Q, 0%Q) |}.

(** A blank 20x20 page, a 3x3 speck of ink, and a 60x60 block of ink. *)
Definition blank : image := repeat (repeat 0%Z 20) 20.
Definition speck : image := repeat (repeat 255%Z 3) 3.
Definition block : image := repeat (repeat 255%Z 60) 60.

End OneBlob.

(** ** Further definitions for the scorer *)

Module ScorerFacts.

Import Scorer.
Local Open Scope Q_scope.

(** The first key, in reading order, that a dict does not bind. *)
Definition missing (fd : dict) (k : string) : bool :=
  match dget fd k with
  | None => true
  | Some _ => false
  end.

Definition first_missing (fd : dict) : option string :=
  List.find (missing fd) read_order.

(** Every bound key among those the rules read holds a number. *)
Definition numeric (fd : dict) : Prop :=
  ∀ k v, k ∈ read_order → dget fd k = Some v → ∃ x, v = VNum x.

(** The scores as the rules assign them, before the final [np.clip]. *)
Definition rule_scores (fv : FeatureVector) : TraitScores :=
  {| Sociability := sociability_score fv;
     Focus := focus_score fv 0.5;
     Intensity := intensity_score fv 0.5;
     Optimism := optimism_score fv;
     Discipline := discipline_score fv;
     Spontaneity := spontaneity_score fv 0.5 |}.

(** The spacing rule and the margin rule fire. *)
Definition spacing_fires (fv : FeatureVector) : bool :=
  Num.gtb (word_spacing fv) (letter_size fv)
  || Num.ltb (word_spacing fv) (letter_size fv * 0.5).

Definition margin_fires (fv : FeatureVector) : bool :=
  Num.gtb (left_margin fv) 40 || Num.ltb (left_margin fv) 20.

(** A feature dict without ["line_spacing"] and with a key of its own. *)
Definition partial_features : dict :=
  [ ("note", VStr "no line spacing here"); ("left_margin", VNum 50);
    ("slant", VNum 8); ("pressure", VNum 100); ("letter_size", VNum 30);
    ("word_spacing", VNum 5); ("baseline_slope", VNum 0.08) ].

(** A feature dict that lacks ["pressure"]. *)
Definition no_pressure_features : dict :=
  [ ("letter_size", VNum 30); ("slant", VNum 8);
    ("baseline_slope", VNum 0.08); ("word_spacing", VNum 5);
    ("line_spacing", VNum 0); ("left_margin", VNum 50) ].

End ScorerFacts.

(** ** Further definitions for the extractor *)

Module ExtractorFacts.

Local Open Scope Q_scope.

(** A [uint8] image: every pixel lies in [0, 255]. *)
Definition uint8_image (img : image) : Prop :=
  Forall (Forall (λ p : Z, (0 ≤ p ≤ 255)%Z)) img.

(** The words of a line are in left-to-right order. *)
Definition left_to_right (line : list bbox) : Prop :=
  StronglySorted (λ a b : bbox, (bx a ≤ bx b)%Z) line.


(** The horizontal gaps between the adjacent words of a line,
    [next.x - (prev.x + prev.w)], and those of them that are positive. *)
Definition adjacent_gaps (line : list bbox) : list Z :=
  zip_with (λ b1 b2, (bx b2 - (bx b1 + bw b1))%Z) line (tail line).

Definition positive_gaps (line : list bbox) : list Z :=
  List.filter (λ gap, (0 <? gap)%Z) (adjacent_gaps line).

(** The bottom-centre points of the words of a line. *)
Definition points_x (line : list bbox) : list Q :=
  map (λ b, inject_Z (bx b) + inject_Z (bw b) / 2) line.

Definition points_y (line : list bbox) : list Q :=
  map (λ b, inject_Z (by_ b + bh b)) line.

(** The four samples of the loop over the lines, in closed form. *)
Definition line_samples {V : Vision} (ls : list (list bbox))
  : Extractor.LineStats :=
  {| Extractor.left_margins := Extractor.first_xs ls;
     Extractor.word_gaps := flat_map positive_gaps ls;
     Extractor.baseline_slopes :=
       map (λ line, (lstsq_line (points_x line) (points_y line)).1)
           (Extractor.qualifying ls);
     Extractor.line_y_coords :=
       map (λ line, Np.median_of (points_y line))
           (Extractor.qualifying ls) |}.

(** Four word boxes on two lines, the second line given right to left. *)
Definition two_lines : list bbox :=
  [ (10, 0, 30, 20)%Z; (50, 2, 30, 20)%Z; (60, 50, 30, 20)%Z;
    (12, 52, 30, 20)%Z ].

End ExtractorFacts.

(** ** The radar chart: [create_spider_chart]

    matplotlib is not modelled: a figure is the record of what the function
    hands to it.  Angles are in units of pi. *)

Module Chart.

Local Open Scope Q_scope.
Local Open Scope list_scope.

(** A tick label object; [None] is matplotlib's default alignment. *)
Record TickLabel : Type := {
  tick_text : string;
  horizontalalignment : option string;
  verticalalignment : option string;
}.

Record Figure : Type := {
  figsize : Q * Q;
  polygon_angles : list Q;      (* [angles_loop], for [fill] and [plot] *)
  polygon_radii : list value;   (* [stats_loop] *)
  yticks : list Q;
  yticklabels : list string;
  ylim : Q * Q;
  rlabel_position : Q;
  xticks : list Q;
  xticklabels : list TickLabel;
}.

Definition dvalues (d : dict) : list value := map snd d.

(** [list(o.values())] *)
Definition values (l : loc) : M (list value) := λ σ,
  match σ !! l with
  | None => inl NoObject
  | Some d => inr (dvalues d, σ)
  end.

(** [np.linspace(0, 2 * np.pi, n, endpoint=False).tolist()], in units of
    pi: the multiples [i * (2 / n)] for [i < n]. *)
Definition linspace_turn (n : nat) : list Q :=
  map (λ i, inject_Z (Z.of_nat i) * (2 / inject_Z (Z.of_nat n))) (seq 0 n).

(** [labels[i].set_horizontalalignment(a)] and
    [labels[i].set_verticalalignment(a)]. *)
Definition set_horizontalalignment (i : nat) (a : string)
    (labels : list TickLabel) : E (list TickLabel) :=
  t ← index labels i;
  mret (<[i := {| tick_text := tick_text t;
                  horizontalalignment := Some a;
                  verticalalignment := verticalalignment t |}]> labels).

Definition set_verticalalignment (i : nat) (a : string)
    (labels : list TickLabel) : E (list TickLabel) :=
  t ← index labels i;
  mret (<[i := {| tick_text := tick_text t;
                  horizontalalignment := horizontalalignment t;
                  verticalalignment := Some a |}]> labels).

(** The body of the function once the dict is read. *)
Definition draw (labels : list string) (stats : list value) : E Figure :=
  let num_vars := length labels in
  let angles := linspace_turn num_vars in
  (* complete the loop *)
  let stats_loop := stats ++ take 1 stats in
  let angles_loop := angles ++ take 1 angles in
  (* [ax.set_xticks(angles); ax.set_xticklabels(labels)] *)
  let xtick_labels :=
    map (λ s, {| tick_text := s; horizontalalignment := None;
                 verticalalignment := None |}) labels in
  xtick_labels ← set_horizontalalignment 0 "left" xtick_labels;
  xtick_labels ← set_verticalalignment 1 "bottom" xtick_labels;
  xtick_labels ← set_verticalalignment 2 "bottom" xtick_labels;
  xtick_labels ← set_horizontalalignment 3 "right" xtick_labels;
  xtick_labels ← set_verticalalignment 4 "top" xtick_labels;
  xtick_labels ← set_verticalalignment 5 "top" xtick_labels;
  mret {| figsize := (4, 4);
          polygon_angles := angles_loop;
          polygon_radii := stats_loop;
          yticks := [0.25; 0.5; 0.75; 1.0];
          yticklabels := ["Low"; "Mid"; "High"; "V. High"];
          ylim := (0, 1.2);
          rlabel_position := 22.5;
          xticks := angles;
          xticklabels := xtick_labels |}.

Definition create_spider_chart (quantitative_profile : loc) : M Figure :=
  labels ← keys quantitative_profile;
  stats ← values quantitative_profile;
  lift (draw labels stats).

(** [q_profile, d_profile = get_personality_profile(features);
    fig = create_spider_chart(q_profile)], as [app.py] chains them. *)
Definition profile_chart (features : loc) : M Figure :=
  profile ← Scorer.get_personality_profile features;
  create_spider_chart profile.1.

(** The tick labels of a six-trait profile as the comments of the function
    describe them. *)
Definition trait_ticks : list TickLabel :=
  [ {| tick_text := "Sociability"; horizontalalignment := Some "left";
       verticalalignment := None |};
    {| tick_text := "Focus"; horizontalalignment := None;
       verticalalignment := Some "bottom" |};
    {| tick_text := "Intensity"; horizontalalignment := None;
       verticalalignment := Some "bottom" |};
    {| tick_text := "Optimism"; horizontalalignment := Some "right";
       verticalalignment := None |};
    {| tick_text := "Discipline"; horizontalalignment := None;
       verticalalignment := Some "top" |};
    {| tick_text := "Spontaneity"; horizontalalignment := None;
       verticalalignment := Some "top" |} ].

(** A profile of five traits only. *)
Definition five_traits : dict :=
  [ ("Sociability", VNum 0.5); ("Focus", VNum 0.5); ("Intensity", VNum 0.5);
    ("Optimism", VNum 0.5); ("Discipline", VNum 0.5) ].

End Chart.

(** ** Preparing the image: [preprocess_for_graphology] *)

Module Preprocess.

Local Open Scope list_scope.

(** The library calls of the preparation, on a colour image of a type of
    its own:
    - [cvtColor_gray img] is [cv2.cvtColor(img, cv2.COLOR_BGR2GRAY)];
    - [GaussianBlur img] is [cv2.GaussianBlur(img, (5, 5), 0)];
    - [adaptiveThreshold_inv img] is [cv2.adaptiveThreshold(img, 255,
      ADAPTIVE_THRESH_GAUSSIAN_C, THRESH_BINARY_INV, 11, 2)];
    - [dilate_lines img] is [cv2.dilate] with a 40x1 rectangle. *)
Class Imaging : Type := {
  color_image : Type;
  cvtColor_gray : color_image → image;
  GaussianBlur : image → image;
  adaptiveThreshold_inv : image → image;
  dilate_lines : image → image;
}.

(** [gray[y:y+h, x:x+w]] for the non-negative coordinates that
    [cv2.boundingRect] returns; a slice stops at the border of the
    array. *)
Definition crop (gray : image) (b : bbox) : image :=
  let '(x, y, w, h) := b in
  map (λ row, take (Z.to_nat w) (drop (Z.to_nat x) row))
      (take (Z.to_nat h) (drop (Z.to_nat y) gray)).

(** Sort key [lambda b: b[1]]. *)
Definition le_y (a b : bbox) : bool := (by_ a <=? by_ b)%Z.

(** The noise filter of the line boxes: [h > 10 and w > 50]. *)
Definition line_sized (b : bbox) : bool :=
  (10 <? bh b)%Z && (50 <? bw b)%Z.

Section WithLibraries.

Context {V : Vision} {I : Imaging}.

Definition preprocess_for_graphology (image_array : color_image)
  : image * image * list image :=
  (* 1. grayscale and blur *)
  let gray := cvtColor_gray image_array in
  let blurred := GaussianBlur gray in
  (* 2. inverted binary image for contour detection *)
  let thresh_inv := adaptiveThreshold_inv blurred in
  (* 3. segment the image into lines of text *)
  let dilated := dilate_lines thresh_inv in
  let contours := findContours dilated in
  let line_bboxes := Np.sort_by le_y (map boundingRect contours) in
  let lines :=
    fold_left (λ (lines : list image) (b : bbox),
                 let '(x, y, w, h) := b in
                 if (10 <? h)%Z && (50 <? w)%Z
                 then lines ++ [crop gray (x, y, w, h)]
                 else lines)
              line_bboxes [] in
  (gray, thresh_inv, lines).

(** The boxes of the lines that [preprocess_for_graphology] crops. *)
Definition line_boxes (image_array : color_image) : list bbox :=
  List.filter line_sized
    (Np.sort_by le_y
       (map boundingRect
          (findContours
             (dilate_lines
                (adaptiveThreshold_inv
                   (GaussianBlur (cvtColor_gray image_array))))))).

(** [gray_img, bin_img, lines = preprocess_for_graphology(img_array)]
    followed by the extractor and the scorer, as in [app.py]. *)
Definition analyse_image (img_array : color_image) : M (loc * loc * loc) :=
  let '(gray_img, bin_img, lines) := preprocess_for_graphology img_array in
  App.analyse gray_img bin_img lines.

End WithLibraries.

(** What the scorer says of a page without ink. *)
Definition blank_page_description : dict :=
  [ ("Outlook", VStr "Controlled, independent, balanced.");
    ("Focus", VStr "Focused, introverted, detail-oriented.");
    ("Intensity", VStr "Intense, forceful, high energy.");
    ("Mood", VStr "Steady, balanced, and stable.");
    ("Planning", VStr "Spontaneous, impulsive, lives in the moment.") ].

(** An imaging library for examples: a colour image is its gray image, and
    blur, threshold and dilation leave it as it is. *)
Definition plain_imaging : Imaging :=
  {| color_image := image;
     cvtColor_gray := λ img, img;
     GaussianBlur := λ img, img;
     adaptiveThreshold_inv := λ img, img;
     dilate_lines := λ img, img |}.

End Preprocess.

(** ** Preparing the image for print OCR: [preprocess_for_ocr] *)

Module Ocr.

Import Preprocess.
Local Open Scope Q_scope.
Local Open Scope list_scope.

(** What the [try] block can raise: the read of a local variable that has
    no value yet, an error of a library call, or an exception of the
    helpers above. *)
Inductive py_exn : Type :=
  | UnboundLocalError (name : string)
  | LibraryError (message : string)
  | Raised (e : exn).

Definition T (A : Type) : Type := (py_exn + A)%type.

#[export] Instance T_ret : MRet T := λ A a, inr a.
#[export] Instance T_bind : MBind T := λ A B f m,
  match m with
  | inl e => inl e
  | inr a => f a
  end.

Definition of_E {A} (e : E A) : T A :=
  match e with
  | inl x => inl (Raised x)
  | inr a => inr a
  end.

(** The value of the local variable [name]; a local variable is unbound
    until the function assigns it. *)
Definition local {A} (name : string) (v : option A) : T A :=
  match v with
  | Some a => inr a
  | None => inl (UnboundLocalError name)
  end.

(** The library calls of the de-skewing block, each free to raise:
    - [bitwise_not img] is [cv2.bitwise_not(img)];
    - [threshold_otsu img] is [cv2.threshold(img, 0, 255,
      THRESH_BINARY + THRESH_OTSU)[1]];
    - [HoughLinesP img a b] is [cv2.HoughLinesP(img, 1, np.pi / 180, 100,
      minLineLength=a, maxLineGap=b)], [None] when no line is found, else
      the rows [line[0]];
    - [angle_deg dy dx] is [np.rad2deg(np.arctan2(dy, dx))];
    - [rotate img angle w h] is [cv2.warpAffine] of [img] with the matrix
      of [cv2.getRotationMatrix2D((w // 2, h // 2), angle, 1.0)];
    - [adaptiveThreshold_ocr img] is [cv2.adaptiveThreshold(img, 255,
      ADAPTIVE_THRESH_GAUSSIAN_C, THRESH_BINARY, 15, 7)]. *)
Class OcrLibrary : Type := {
  bitwise_not : image → T image;
  threshold_otsu : image → T image;
  HoughLinesP : image → Z → Z → T (option (list (Z * Z * Z * Z)));
  angle_deg : Z → Z → Q;
  rotate : image → Q → Z → Z → T image;
  adaptiveThreshold_ocr : image → image;
}.

(** [gray.shape[:2]] *)
Definition shape (img : image) : Z * Z :=
  (Z.of_nat (length img), Z.of_nat (length (hd [] img))).

Section WithLibraries.

Context {I : Imaging} {L : OcrLibrary}.

(** One iteration of [for line in lines]. *)
Definition collect_angle (angles : list Q) (line : Z * Z * Z * Z) : list Q :=
  let '(x1, y1, x2, y2) := line in
  if negb (x2 - x1 =? 0)%Z then
    let angle := angle_deg (y2 - y1) (x2 - x1) in
    if Num.ltb (-45) angle && Num.ltb angle 45 then angles ++ [angle]
    else angles
  else angles.

(** The [try] block.  [w] is the local variable [w] as it stands when the
    block is entered; the result is the value of [gray] when the block
    ends. *)
Definition deskew (gray : image) (w : option Z) : T image :=
  inverted ← bitwise_not gray;
  thresh ← threshold_otsu inverted;
  min_line_length ← (w ← local "w" w; mret (w / 3)%Z);
  max_line_gap ← (w ← local "w" w; mret (w / 10)%Z);
  lines ← HoughLinesP thresh min_line_length max_line_gap;
  let angles :=
    match lines with
    | Some lines => fold_left collect_angle lines []
    | None => []
    end in
  if negb (Np.is_empty angles) then
    median_angle ← of_E (Np.median angles);
    if Num.gtb (Qabs median_angle) 1.0 then
      let '(h, w) := shape gray in
      rotate gray median_angle w h
    else mret gray
  else mret gray.

(** The function returns the preprocessed image; the second component is
    what the [except] handler printed. *)
Definition preprocess_for_ocr (image_array : color_image)
  : image * list py_exn :=
  let gray := cvtColor_gray image_array in
  let '(gray, printed) :=
    match deskew gray None with
    | inr rotated => (rotated, [])
    | inl e => (gray, [e])
    end in
  let blurred := GaussianBlur gray in
  (adaptiveThreshold_ocr blurred, printed).

End WithLibraries.

End Ocr.

(** * Proofs *)
Import Scorer.
Local Open Scope Q_scope.

Lemma bind_inr {A B} (m : M A) (f : A → M B) (σ σ' : heap) (a : A) :
  m σ = inr (a, σ') → (m ≫= f) σ = f a σ'.
Proof. intros Hm. unfold mbind, M_bind. by rewrite Hm. Qed.

Lemma bind_assoc_run {A B C} (m : M A) (f : A → M B) (g : B → M C) (σ : heap) :
  ((m ≫= f) ≫= g) σ = (m ≫= (λ a, f a ≫= g)) σ.
Proof. unfold mbind, M_bind. destruct (m σ) as [e|[a σ']]; done. Qed.

Section FrameLemmas.
Context (σ : heap) (r q d : loc) (fd : dict) (fv : FeatureVector).
Hypothesis Hr : σ !! r = Some fd.
Hypothesis Hq : σ !! q = None.
Hypothesis Hd : σ !! d = None.
Hypothesis Hqd : q ≠ d.
Hypothesis Hslant : dget fd "slant" = Some (VNum (slant fv)).
Hypothesis Hspacing : dget fd "word_spacing" = Some (VNum (word_spacing fv)).
Hypothesis Hsize : dget fd "letter_size" = Some (VNum (letter_size fv)).
Hypothesis Hpressure : dget fd "pressure" = Some (VNum (pressure fv)).
Hypothesis Hslope :
  dget fd "baseline_slope" = Some (VNum (baseline_slope fv)).
Hypothesis Hmargin : dget fd "left_margin" = Some (VNum (left_margin fv)).

Lemma frame_features qd dd : frame σ q d qd dd !! r = Some fd.
Proof.
  unfold frame. rewrite !lookup_insert_ne; [done| |]; intros ->; congruence.
Qed.

Lemma frame_quantitative qd dd : frame σ q d qd dd !! q = Some qd.
Proof. unfold frame. rewrite lookup_insert_ne by done. apply lookup_insert_eq. Qed.

Lemma frame_descriptive qd dd : frame σ q d qd dd !! d = Some dd.
Proof. unfold frame. apply lookup_insert_eq. Qed.

Lemma getnum_features k x qd dd :
  dget fd k = Some (VNum x) →
  getnum r k (frame σ q d qd dd) = inr (x, frame σ q d qd dd).
Proof.
  intros Hk. unfold getnum, mbind, M_bind, getitem.
  by rewrite frame_features, Hk.
Qed.

Lemma getnum_quantitative k x qd dd :
  dget qd k = Some (VNum x) →
  getnum q k (frame σ q d qd dd) = inr (x, frame σ q d qd dd).
Proof.
  intros Hk. unfold getnum, mbind, M_bind, getitem.
  by rewrite frame_quantitative, Hk.
Qed.

Lemma setitem_quantitative k v qd dd :
  setitem q k v (frame σ q d qd dd) = inr (tt, frame σ q d (dset k v qd) dd).
Proof.
  unfold setitem. rewrite frame_quantitative. unfold frame.
  f_equal. f_equal. rewrite insert_insert_ne by done. rewrite insert_insert_eq.
  by rewrite insert_insert_ne.
Qed.

Lemma setitem_descriptive k v qd dd :
  setitem d k v (frame σ q d qd dd) = inr (tt, frame σ q d qd (dset k v dd)).
Proof.
  unfold setitem. rewrite frame_descriptive. unfold frame.
  by rewrite insert_insert_eq.
Qed.

Lemma keys_quantitative qd dd :
  keys q (frame σ q d qd dd) = inr (dkeys qd, frame σ q d qd dd).
Proof. unfold keys. by rewrite frame_quantitative. Qed.

Ltac step :=
  first
    [ rewrite bind_assoc_run
    | erewrite bind_inr; [ | first
        [ apply getnum_features; eassumption
        | apply getnum_quantitative; reflexivity
        | apply setitem_quantitative
        | apply setitem_descriptive
        | apply keys_quantitative ] ] ].

Ltac last_step :=
  first [ rewrite setitem_descriptive | rewrite setitem_quantitative | idtac ];
  reflexivity.

Ltac run := repeat step; try last_step.

Lemma rule_sociability_run t dd :
  rule_sociability r q d (frame σ q d (qdict t) dd) =
  inr (tt, frame σ q d
             (qdict {| Sociability := sociability_score fv;
                       Focus := Focus t; Intensity := Intensity t;
                       Optimism := Optimism t; Discipline := Discipline t;
                       Spontaneity := Spontaneity t |})
             (sociability_labels fv dd)).
Proof.
  destruct t. unfold rule_sociability, sociability_score, sociability_labels.
  do 2 step.
  destruct (Num.gtb (slant fv) 5);
    [ | do 2 step; destruct (Num.ltb (slant fv) (-5)) ];
    do 5 step;
    (destruct (Num.gtb (word_spacing fv) (letter_size fv));
       [ | do 2 step;
           destruct (Num.ltb (word_spacing fv) (letter_size fv * 0.5)) ]);
    run.
Qed.

Lemma rule_focus_run t dd :
  rule_focus r q d (frame σ q d (qdict t) dd) =
  inr (tt, frame σ q d
             (qdict {| Sociability := Sociability t;
                       Focus := focus_score fv (Focus t);
                       Intensity := Intensity t;
                       Optimism := Optimism t; Discipline := Discipline t;
                       Spontaneity := Spontaneity t |})
             (focus_labels fv dd)).
Proof.
  destruct t. unfold rule_focus, focus_score, focus_labels.
  step. destruct (Num.gtb _ _); [ | step; destruct (Num.ltb _ _) ]; run.
Qed.

Lemma rule_intensity_run t dd :
  rule_intensity r q d (frame σ q d (qdict t) dd) =
  inr (tt, frame σ q d
             (qdict {| Sociability := Sociability t; Focus := Focus t;
                       Intensity := intensity_score fv (Intensity t);
                       Optimism := Optimism t; Discipline := Discipline t;
                       Spontaneity := Spontaneity t |})
             (intensity_labels fv dd)).
Proof.
  destruct t. unfold rule_intensity, intensity_score, intensity_labels.
  step. destruct (Num.ltb _ _); [ | step; destruct (Num.gtb _ _) ]; run.
Qed.

Lemma rule_optimism_run t dd :
  rule_optimism r q d (frame σ q d (qdict t) dd) =
  inr (tt, frame σ q d
             (qdict {| Sociability := Sociability t; Focus := Focus t;
                       Intensity := Intensity t;
                       Optimism := optimism_score fv;
                       Discipline := Discipline t;
                       Spontaneity := Spontaneity t |})
             (optimism_labels fv dd)).
Proof.
  destruct t. unfold rule_optimism, optimism_score, optimism_labels.
  step. destruct (Num.ltb _ _); [ | step; destruct (Num.gtb _ _) ]; run.
Qed.

Lemma rule_discipline_run t dd :
  rule_discipline r q (frame σ q d (qdict t) dd) =
  inr (tt, frame σ q d
             (qdict {| Sociability := Sociability t; Focus := Focus t;
                       Intensity := Intensity t; Optimism := Optimism t;
                       Discipline := discipline_score fv;
                       Spontaneity := Spontaneity t |})
             dd).
Proof.
  destruct t. unfold rule_discipline, discipline_score.
  do 2 step.
  destruct (Num.leb (-0.05) (baseline_slope fv)
            && Num.leb (baseline_slope fv) 0.05);
    do 2 step;
    destruct (Num.leb (-5) (slant fv) && Num.leb (slant fv) 5); run.
Qed.

Lemma rule_spontaneity_run t dd :
  rule_spontaneity r q d (frame σ q d (qdict t) dd) =
  inr (tt, frame σ q d
             (qdict {| Sociability := Sociability t; Focus := Focus t;
                       Intensity := Intensity t; Optimism := Optimism t;
                       Discipline := Discipline t;
                       Spontaneity := spontaneity_score fv (Spontaneity t) |})
             (spontaneity_labels fv dd)).
Proof.
  destruct t. unfold rule_spontaneity, spontaneity_score, spontaneity_labels.
  step. destruct (Num.gtb _ _); [ | step; destruct (Num.ltb _ _) ]; run.
Qed.

Lemma clamp_scores_run t dd :
  clamp_scores q (frame σ q d (qdict t) dd) =
  inr (tt, frame σ q d
             (qdict {| Sociability := Num.clip (Sociability t) 0.1 1.0;
                       Focus := Num.clip (Focus t) 0.1 1.0;
                       Intensity := Num.clip (Intensity t) 0.1 1.0;
                       Optimism := Num.clip (Optimism t) 0.1 1.0;
                       Discipline := Num.clip (Discipline t) 0.1 1.0;
                       Spontaneity := Num.clip (Spontaneity t) 0.1 1.0 |})
             dd).
Proof.
  destruct t. unfold clamp_scores. step.
  cbn [dkeys qdict map fst for_each Sociability Focus Intensity Optimism
       Discipline Spontaneity].
  run.
Qed.

End FrameLemmas.

Lemma fresh_loc_None (σ : heap) : σ !! fresh_loc σ = None.
Proof. apply not_elem_of_dom. unfold fresh_loc. apply is_fresh. Qed.

(** The scorer on any dict that binds the six keys it reads. *)
Lemma get_personality_profile_reads (σ : heap) (r : loc) (fd : dict)
    (fv : FeatureVector) :
  σ !! r = Some fd →
  reads fd fv →
  get_personality_profile r σ =
  inr ((fresh_loc σ, fresh_loc (<[fresh_loc σ := quantitative_init]> σ)),
       frame σ (fresh_loc σ)
         (fresh_loc (<[fresh_loc σ := quantitative_init]> σ))
         (qdict (scores fv)) (descriptions fv)).
Proof.
  intros Hr (Hslant & Hspacing & Hsize & Hpressure & Hslope & Hmargin).
  set (q := fresh_loc σ).
  set (d := fresh_loc (<[q := quantitative_init]> σ)).
  assert (Hq : σ !! q = None) by apply fresh_loc_None.
  assert (Hd' : <[q := quantitative_init]> σ !! d = None)
    by apply fresh_loc_None.
  assert (Hqd : q ≠ d).
  { intros Heq. rewrite <- Heq, lookup_insert_eq in Hd'. discriminate. }
  assert (Hd : σ !! d = None).
  { by rewrite lookup_insert_ne in Hd'. }
  unfold get_personality_profile.
  erewrite bind_inr by reflexivity.
  erewrite bind_inr by reflexivity.
  fold q. fold d.
  change (<[d := []]> (<[q := quantitative_init]> σ))
    with (frame σ q d (qdict {| Sociability := 0.5; Focus := 0.5;
                                 Intensity := 0.5; Optimism := 0.5;
                                 Discipline := 0.5; Spontaneity := 0.5 |}) []).
  (erewrite bind_inr by (by eapply rule_sociability_run); cbn [Sociability Focus Intensity Optimism Discipline Spontaneity]).
  (erewrite bind_inr by (by eapply rule_focus_run); cbn [Sociability Focus Intensity Optimism Discipline Spontaneity]).
  (erewrite bind_inr by (by eapply rule_intensity_run); cbn [Sociability Focus Intensity Optimism Discipline Spontaneity]).
  (erewrite bind_inr by (by eapply rule_optimism_run); cbn [Sociability Focus Intensity Optimism Discipline Spontaneity]).
  (erewrite bind_inr by (by eapply rule_discipline_run); cbn [Sociability Focus Intensity Optimism Discipline Spontaneity]).
  (erewrite bind_inr by (by eapply rule_spontaneity_run); cbn [Sociability Focus Intensity Optimism Discipline Spontaneity]).
  (erewrite bind_inr by (by eapply clamp_scores_run); cbn [Sociability Focus Intensity Optimism Discipline Spontaneity]).
  reflexivity.
Qed.

Lemma get_personality_profile_run (σ : heap) (r : loc) (fv : FeatureVector) :
  σ !! r = Some (fdict fv) →
  get_personality_profile r σ =
  inr ((fresh_loc σ, fresh_loc (<[fresh_loc σ := quantitative_init]> σ)),
       frame σ (fresh_loc σ)
         (fresh_loc (<[fresh_loc σ := quantitative_init]> σ))
         (qdict (scores fv)) (descriptions fv)).
Proof.
  intros Hr. by apply (get_personality_profile_reads σ r (fdict fv) fv).
Qed.

Lemma ltb_lt (x y : Q) : Num.ltb x y = true ↔ x < y.
Proof.
  unfold Num.ltb. rewrite negb_true_iff, <- not_true_iff_false, Qle_bool_iff.
  split; [apply Qnot_le_lt | apply Qlt_not_le].
Qed.

Lemma ltb_ge (x y : Q) : Num.ltb x y = false ↔ y <= x.
Proof. unfold Num.ltb. rewrite negb_false_iff. apply Qle_bool_iff. Qed.

Lemma clip_bounds (x : Q) : 0.1 <= Num.clip x 0.1 1.0 ∧ Num.clip x 0.1 1.0 <= 1.0.
Proof.
  unfold Num.clip, Num.gtb.
  destruct (Num.ltb x 0.1) eqn:Hlo; [ split; lra | ].
  destruct (Num.ltb 1.0 x) eqn:Hhi; [ split; lra | ].
  apply ltb_ge in Hlo, Hhi. split; lra.
Qed.

Lemma frame_lookup_q (σ : heap) (q d : loc) (qd dd : dict) :
  q ≠ d → frame σ q d qd dd !! q = Some qd.
Proof. intros. unfold frame. rewrite lookup_insert_ne by done. apply lookup_insert_eq. Qed.

Lemma fresh_pair (σ : heap) (qd : dict) :
  let q := fresh_loc σ in
  let d := fresh_loc (<[q := qd]> σ) in
  σ !! q = None ∧ σ !! d = None ∧ q ≠ d.
Proof.
  intros q d.
  assert (Hq : σ !! q = None) by apply fresh_loc_None.
  assert (Hd' : <[q := qd]> σ !! d = None) by apply fresh_loc_None.
  assert (Hqd : q ≠ d).
  { intros Heq. rewrite <- Heq, lookup_insert_eq in Hd'. discriminate. }
  rewrite lookup_insert_ne in Hd' by done. done.
Qed.

(** C1.  For every feature vector, extreme values included, each of the
    six quantitative scores [get_personality_profile] returns lies within
    [0.1, 1.0]. *)
Theorem scores_within_bounds (σ : heap) (features : loc) (fv : FeatureVector) :
  σ !! features = Some (fdict fv) →
  ∃ q d σ' qd,
    get_personality_profile features σ = inr ((q, d), σ') ∧
    σ' !! q = Some qd ∧
    dkeys qd = ["Sociability"; "Focus"; "Intensity"; "Optimism";
                "Discipline"; "Spontaneity"] ∧
    ∀ k v, dget qd k = Some v → ∃ x, v = VNum x ∧ 0.1 <= x ∧ x <= 1.0.
Proof.
  intros Hr.
  destruct (fresh_pair σ quantitative_init) as (Hq & Hd & Hqd).
  eexists _, _, _, _. split; [ by apply get_personality_profile_run | ].
  split; [ by apply frame_lookup_q | ].
  split; [ reflexivity | ].
  intros k v Hk. unfold scores, qdict in Hk. cbn [dget Sociability Focus Intensity Optimism Discipline Spontaneity] in Hk.
  repeat (destruct (String.eqb k _);
          [ injection Hk as <-; eexists; split; [ reflexivity | apply clip_bounds ] | ]).
  discriminate.
Qed.

Lemma scores_within_bounds_witness :
  ∃ q d σ' qd,
    get_personality_profile 1%positive {[ 1%positive := fdict adversarial_features ]} = inr ((q, d), σ') ∧
    σ' !! q = Some qd ∧
    dkeys qd = ["Sociability"; "Focus"; "Intensity"; "Optimism";
                "Discipline"; "Spontaneity"] ∧
    ∀ k v, dget qd k = Some v → ∃ x, v = VNum x ∧ 0.1 <= x ∧ x <= 1.0.
Proof.
  apply (scores_within_bounds _ _ adversarial_features). reflexivity.
Defined.

(** ** The extractor *)

Import Extractor.
Local Open Scope list_scope.

Lemma value_or_inr {A} (dflt : A) (e : E A) :
  (∃ a, e = inr a) → e = inr (value_or dflt e).
Proof. intros [a ->]. reflexivity. Qed.

Lemma index_lt {A} (xs : list A) (i : nat) :
  (i < length xs)%nat → ∃ x, index xs i = inr x ∧ xs !! i = Some x.
Proof.
  intros Hi. destruct (lookup_lt_is_Some_2 xs i Hi) as [x Hx].
  exists x. unfold index. by rewrite Hx.
Qed.

Lemma is_empty_length {A} (l : list A) :
  Np.is_empty l = false ↔ (0 < length l)%nat.
Proof. destruct l; simpl; split; intros; try done; lia. Qed.

Lemma insert_by_length {A} (le : A → A → bool) (a : A) (l : list A) :
  length (Np.insert_by le a l) = S (length l).
Proof.
  induction l as [|b l IH]; simpl; [ done | ].
  destruct (le a b); simpl; by rewrite ?IH.
Qed.

Lemma sort_by_length {A} (le : A → A → bool) (l : list A) :
  length (Np.sort_by le l) = length l.
Proof.
  induction l as [|a l IH]; simpl; [ done | ].
  by rewrite insert_by_length, IH.
Qed.

Lemma sort_by_is_empty {A} (le : A → A → bool) (l : list A) :
  Np.is_empty (Np.sort_by le l) = Np.is_empty l.
Proof.
  destruct l as [|a l]; [ done | ].
  apply is_empty_length. rewrite sort_by_length. simpl. lia.
Qed.

Lemma bind_e_inr {A B} (m : E A) (f : A → E B) (a : A) :
  m = inr a → (m ≫= f) = f a.
Proof. by intros ->. Qed.

Lemma gap_step_total (line : list bbox) (gaps : list Z) (i : nat) :
  (i + 1 < length line)%nat → ∃ gaps', gap_step line gaps i = inr gaps'.
Proof.
  intros Hi. unfold gap_step.
  destruct (index_lt line i) as (b1 & -> & _); [ lia | ].
  destruct (index_lt line (i + 1)) as (b2 & -> & _); [ lia | ].
  by eexists.
Qed.

Lemma gap_loop_total (line : list bbox) (n start : nat) (gaps : list Z) :
  (start + n < length line)%nat →
  ∃ gaps', fold_e (gap_step line) gaps (seq start n) = inr gaps'.
Proof.
  revert start gaps. induction n as [|n IH]; intros start gaps Hn.
  - by eexists.
  - destruct (gap_step_total line gaps start) as [g Hg]; [ lia | ].
    cbn [seq fold_e]. rewrite (bind_e_inr _ _ _ Hg). apply IH. lia.
Qed.

Section ExtractorProofs.
Context {V : Vision}.

Lemma polyfit1_total (xs ys : list Q) :
  (0 < length xs)%nat → length xs = length ys →
  polyfit1 xs ys = inr (lstsq_line xs ys).
Proof.
  intros Hx Hy. unfold polyfit1.
  apply is_empty_length in Hx. rewrite Hx, Hy, Nat.eqb_refl. reflexivity.
Qed.

Lemma median_total (l : list Q) :
  Np.is_empty l = false → Np.median l = inr (Np.median_of l).
Proof. intros Hl. unfold Np.median. by rewrite Hl. Qed.

Lemma line_step_total (s : LineStats) (line : list bbox) :
  ∃ s', line_step s line = inr s'.
Proof.
  unfold line_step. destruct (Np.is_empty line) eqn:Hl; [ by eexists | ].
  apply is_empty_length in Hl.
  destruct (index_lt line 0) as (b0 & -> & _); [ done | ].
  cbn [mbind E_bind].
  destruct (gap_loop_total line (length line - 1) 0 (word_gaps s))
    as [gaps ->]; [ lia | ].
  rewrite !length_map.
  destruct (1 <? length line)%nat eqn:Hlen; [ | by eexists ].
  apply Nat.ltb_lt in Hlen.
  rewrite polyfit1_total by (rewrite !length_map; lia).
  rewrite median_total by (apply is_empty_length; rewrite length_map; lia).
  by eexists.
Qed.

Lemma line_stats_total (ls : list (list bbox)) (s : LineStats) :
  ∃ s', fold_e line_step s ls = inr s'.
Proof.
  revert s. induction ls as [|line ls IH]; intros s.
  - by eexists.
  - destruct (line_step_total s line) as [s' Hs'].
    cbn [fold_e]. rewrite (bind_e_inr _ _ _ Hs'). apply IH.
Qed.

Lemma group_lines_total (bs : list bbox) :
  Np.is_empty bs = false → ∃ ls, group_lines bs = inr ls.
Proof.
  intros Hb. apply is_empty_length in Hb. unfold group_lines.
  destruct (index_lt bs 0) as (b0 & -> & _); [ done | ].
  by eexists.
Qed.

Lemma setitem_at (σ : heap) (r : loc) (fd : dict) (k : string) (v : value) :
  setitem r k v (<[r := fd]> σ) = inr (tt, <[r := dset k v fd]> σ).
Proof.
  unfold setitem. rewrite lookup_insert_eq. by rewrite insert_insert_eq.
Qed.

Lemma set_median_run (σ : heap) (r : loc) (fd : dict) (k : string)
    (c : bool) (l : list Q) :
  (c = true → Np.is_empty l = false) →
  (if c then m ← lift (Np.median l); setitem r k (VNum m) else mret tt)
    (<[r := fd]> σ) =
  inr (tt, <[r := if c then dset k (VNum (Np.median_of l)) fd else fd]> σ).
Proof.
  intros Hc. destruct c; [ | reflexivity ].
  rewrite median_total by auto.
  erewrite bind_inr by reflexivity. apply setitem_at.
Qed.

Lemma any_nonempty (l : list Z) : Np.any l = true → Np.is_empty l = false.
Proof. by destruct l. Qed.

Lemma set_mean_run (σ : heap) (r : loc) (fd : dict) (k : string)
    (l : list Z) :
  (if Np.any l then p ← lift (Np.mean l); setitem r k (VNum p) else mret tt)
    (<[r := fd]> σ) =
  inr (tt, <[r := if Np.any l then dset k (VNum (Np.mean_of l)) fd else fd]> σ).
Proof.
  destruct (Np.any l) eqn:Hl; [ | reflexivity ].
  unfold Np.mean. rewrite (any_nonempty _ Hl).
  erewrite bind_inr by reflexivity. apply setitem_at.
Qed.

Lemma negb_is_empty_map {A B} (f : A → B) (l : list A) :
  negb (Np.is_empty l) = true → Np.is_empty (map f l) = false.
Proof. by destruct l. Qed.

Lemma negb_is_empty {A} (l : list A) :
  negb (Np.is_empty l) = true → Np.is_empty l = false.
Proof. by destruct l. Qed.

Lemma length_pos_nonempty {A} (l : list A) :
  (0 <? length l)%nat = true → Np.is_empty l = false.
Proof. by destruct l. Qed.

Lemma length_pos_is_empty {A} (l : list A) :
  (0 <? length l)%nat = negb (Np.is_empty l).
Proof. by destruct l. Qed.

Lemma is_empty_map {A B} (f : A → B) (l : list A) :
  Np.is_empty (map f l) = Np.is_empty l.
Proof. by destruct l. Qed.

Theorem extract_graphological_features_run
    (gray_image binary_image : image) (lines : list image) (σ : heap) :
  extract_graphological_features gray_image binary_image lines σ =
  inr (fresh_loc σ,
       <[fresh_loc σ := fdict (features_of gray_image binary_image)]> σ).
Proof.
  unfold extract_graphological_features, features_of.
  erewrite bind_inr by reflexivity. cbv zeta.
  fold (words_of binary_image). fold (sorted_boxes binary_image).
  destruct (Np.is_empty (findContours binary_image)); [ reflexivity | ].
  erewrite bind_inr by apply set_mean_run.
  erewrite bind_inr by (apply set_median_run, negb_is_empty_map).
  erewrite bind_inr by (apply set_median_run, negb_is_empty).
  fold (pressure_of gray_image binary_image).
  destruct (Np.is_empty (sorted_boxes binary_image)) eqn:Hb.
  - unfold pressure_of, median_or_zero. rewrite is_empty_map. cbv zeta.
    destruct (Np.any _), (Np.is_empty (heights _)),
      (Np.is_empty (word_angles _)); reflexivity.
  - destruct (group_lines_total _ Hb) as [ls Hls].
    assert (Hlines : lines_of binary_image = ls).
    { unfold lines_of. by rewrite Hls. }
    rewrite Hls. erewrite bind_inr by reflexivity.
    destruct (line_stats_total ls no_stats) as [st Hst].
    assert (Hstats : stats_of binary_image = st).
    { unfold stats_of. by rewrite Hlines, Hst. }
    rewrite Hst, Hstats. erewrite bind_inr by reflexivity.
    erewrite bind_inr by (apply set_median_run, negb_is_empty_map).
    erewrite bind_inr by (apply set_median_run, negb_is_empty_map).
    erewrite bind_inr by (apply set_median_run, negb_is_empty).
    erewrite bind_inr by (apply set_median_run, length_pos_nonempty).
    unfold pressure_of, median_or_zero.
    rewrite length_pos_is_empty, !is_empty_map. cbv zeta.
    destruct (Np.any _), (Np.is_empty (heights _)),
      (Np.is_empty (word_angles _)), (Np.is_empty (word_gaps _)),
      (Np.is_empty (left_margins _)), (Np.is_empty (baseline_slopes _)),
      (Np.is_empty (Np.diff _)); reflexivity.
Qed.

Lemma scan_word_spec (s : WordScan) (c : contour) :
  scan_word s c =
  if retained c then
    {| word_bboxes := word_bboxes s ++ [boundingRect c];
       heights := heights s ++ [bh (boundingRect c)];
       word_angles :=
         if Num.ltb (Qabs (normalized_angle c)) 45
         then word_angles s ++ [normalized_angle c]
         else word_angles s |}
  else s.
Proof.
  unfold scan_word, retained, normalized_angle, bw, bh.
  destruct (boundingRect c) as [[[x y] w] h]. reflexivity.
Qed.

Lemma scan_words_from (cs : list contour) (s : WordScan) :
  fold_left scan_word cs s =
  {| word_bboxes :=
       word_bboxes s ++ map boundingRect (List.filter retained cs);
     heights :=
       heights s ++ map (λ c, bh (boundingRect c)) (List.filter retained cs);
     word_angles := word_angles s ++ slant_sample cs |}.
Proof.
  revert s. induction cs as [|c cs IH]; intros s.
  - destruct s. unfold slant_sample. cbn. by rewrite !app_nil_r.
  - cbn [fold_left]. rewrite IH, scan_word_spec. unfold slant_sample.
    cbn [List.filter]. destruct (retained c); [ | reflexivity ].
    cbn [word_bboxes heights word_angles map List.filter].
    destruct (Num.ltb _ 45); by rewrite <- ?app_assoc.
Qed.

Lemma scan_words_spec (cs : list contour) :
  scan_words cs =
  {| word_bboxes := map boundingRect (List.filter retained cs);
     heights := map (λ c, bh (boundingRect c)) (List.filter retained cs);
     word_angles := slant_sample cs |}.
Proof. unfold scan_words. by rewrite scan_words_from. Qed.

Lemma insert_by_Forall {A} (P : A → Prop) (le : A → A → bool) (a : A)
    (l : list A) :
  P a → Forall P l → Forall P (Np.insert_by le a l).
Proof.
  intros Ha Hl. induction Hl as [|b l Hb Hl IH]; simpl.
  - by constructor.
  - destruct (le a b); repeat constructor; done.
Qed.

Lemma sort_by_Forall {A} (P : A → Prop) (le : A → A → bool) (l : list A) :
  Forall P l → Forall P (Np.sort_by le l).
Proof.
  induction 1 as [|a l Ha Hl IH]; simpl; [ constructor | ].
  by apply insert_by_Forall.
Qed.

Lemma Forall_nth_default (P : Q → Prop) (l : list Q) (i : nat) :
  Forall P l → (i < length l)%nat → P (nth i l 0).
Proof.
  intros Hl Hi. rewrite Forall_forall in Hl. apply Hl.
  apply list_elem_of_In. by apply nth_In.
Qed.

(** The median of a non-empty sample lies in any open interval that
    contains the whole sample. *)
Lemma median_of_between (lo hi : Q) (l : list Q) :
  Np.is_empty l = false →
  Forall (λ a, lo < a ∧ a < hi) l →
  lo < Np.median_of l ∧ Np.median_of l < hi.
Proof.
  intros Hne Hl. unfold Np.median_of.
  apply is_empty_length in Hne.
  pose proof (sort_by_Forall _ Qle_bool l Hl) as Hs.
  pose proof (sort_by_length Qle_bool l) as Hlen.
  set (s := Np.sort_by Qle_bool l) in *. set (n := length s) in *.
  assert (Hn : (0 < n)%nat) by lia.
  assert (Hhalf : (n / 2 < n)%nat) by (apply Nat.div_lt; lia).
  destruct (Nat.even n).
  - destruct (Forall_nth_default _ s (n / 2 - 1) Hs) as [Ha1 Ha2]; [ lia | ].
    destruct (Forall_nth_default _ s (n / 2) Hs) as [Hb1 Hb2]; [ lia | ].
    split; [ apply Qlt_shift_div_l | apply Qlt_shift_div_r ]; lra.
  - by apply (Forall_nth_default _ s (n / 2) Hs).
Qed.

Lemma slant_sample_bounds (cs : list contour) :
  Forall (λ a, -45 < a ∧ a < 45) (slant_sample cs).
Proof.
  unfold slant_sample. apply Forall_forall. intros a Ha.
  apply list_elem_of_In, filter_In in Ha as [_ Ha].
  apply ltb_lt in Ha. by apply Qabs_Qlt_condition in Ha.
Qed.

Lemma line_step_spec (s s' : LineStats) (line : list bbox) :
  line_step s line = inr s' →
  left_margins s' = left_margins s ++ first_xs [line] ∧
  length (baseline_slopes s') =
    (length (baseline_slopes s) + length (qualifying [line]))%nat ∧
  length (line_y_coords s') =
    (length (line_y_coords s) + length (qualifying [line]))%nat ∧
  ((length line < 2)%nat → word_gaps s' = word_gaps s).
Proof.
  unfold line_step, first_xs, qualifying. cbn [flat_map List.filter].
  destruct line as [|b0 rest].
  { intros [= <-]. cbn. rewrite !app_nil_r, !Nat.add_0_r. done. }
  cbn [Np.is_empty index lookup list_lookup mbind E_bind mret E_ret].
  destruct (gap_loop_total (b0 :: rest) (length (b0 :: rest) - 1) 0
              (word_gaps s)) as [gaps Hgaps]; [ simpl; lia | ].
  rewrite Hgaps. rewrite !length_map.
  destruct (1 <? length (b0 :: rest))%nat eqn:Hlen.
  - apply Nat.ltb_lt in Hlen.
    rewrite polyfit1_total by (rewrite !length_map; lia).
    rewrite median_total by (apply is_empty_length; rewrite length_map; lia).
    intros [= <-]. cbn [left_margins baseline_slopes line_y_coords word_gaps].
    rewrite !length_app. cbn [length]. rewrite app_nil_r.
    repeat split; try done. intros Hshort. simpl in Hlen, Hshort. lia.
  - apply Nat.ltb_ge in Hlen.
    intros [= <-]. cbn [left_margins baseline_slopes line_y_coords word_gaps].
    rewrite app_nil_r, !Nat.add_0_r. repeat split; try done.
    intros _. destruct rest; [ | simpl in Hlen; lia ].
    cbn in Hgaps. by injection Hgaps as <-.
Qed.

Lemma line_stats_spec (ls : list (list bbox)) (s s' : LineStats) :
  fold_e line_step s ls = inr s' →
  left_margins s' = left_margins s ++ first_xs ls ∧
  length (baseline_slopes s') =
    (length (baseline_slopes s) + length (qualifying ls))%nat ∧
  length (line_y_coords s') =
    (length (line_y_coords s) + length (qualifying ls))%nat ∧
  (Forall (λ line, (length line < 2)%nat) ls → word_gaps s' = word_gaps s).
Proof.
  revert s. induction ls as [|line ls IH]; intros s.
  - intros [= <-]. cbn. rewrite app_nil_r, !Nat.add_0_r. done.
  - cbn [fold_e]. destruct (line_step_total s line) as [s1 Hs1].
    rewrite (bind_e_inr _ _ _ Hs1). intros Hs'.
    destruct (line_step_spec _ _ _ Hs1) as (Hm1 & Hb1 & Hy1 & Hg1).
    destruct (IH _ Hs') as (Hm & Hb & Hy & Hg).
    rewrite Hm, Hb, Hy, Hm1, Hb1, Hy1.
    unfold first_xs, qualifying in *. cbn [flat_map List.filter] in *.
    rewrite app_nil_r in *.
    destruct (1 <? length line)%nat; cbn [length] in *;
      (repeat split; [ by rewrite <- app_assoc | lia | lia | ]);
      intros Hall; apply Forall_cons in Hall as [Hl Hall];
      rewrite Hg, Hg1 by done; done.
Qed.

Lemma stats_of_run (binary_image : image) :
  fold_e line_step no_stats (lines_of binary_image) =
  inr (stats_of binary_image).
Proof. apply value_or_inr, line_stats_total. Qed.

Lemma diff_short (l : list Q) : (length l < 2)%nat → Np.diff l = [].
Proof. destruct l as [|a [|b l]]; simpl; intros; try done; lia. Qed.

Lemma length_zero_is_empty {A} (l : list A) :
  length l = 0%nat → Np.is_empty l = true.
Proof. by destruct l. Qed.

(** The threshold test of the grouping loop, over the integers:
    [abs(y - current_y) > h * 0.7] iff [10 * |y - current_y| > 7 * h]. *)
Lemma new_line_test (y cy h : Z) :
  Num.gtb (inject_Z (Z.abs (y - cy))) (inject_Z h * 0.7) =
  (7 * h <? 10 * Z.abs (y - cy))%Z.
Proof.
  unfold Num.gtb, Num.ltb, Qle_bool. cbn [Qnum Qden Qmult inject_Z].
  destruct (Z.leb_spec (Z.abs (y - cy) * Z.pos (1 * 10)) (h * 7 * 1));
    destruct (Z.ltb_spec (7 * h) (10 * Z.abs (y - cy))); simpl; try done; lia.
Qed.

Lemma group_word_rule (g : Grouping) (x y w h : Z) :
  group_word g (x, y, w, h) =
  if (7 * h <? 10 * Z.abs (y - current_y g))%Z then
    {| lines_of_words :=
         lines_of_words g ++ [Np.sort_by le_x (current_line g)];
       current_line := [(x, y, w, h)];
       current_y := y |}
  else
    {| lines_of_words := lines_of_words g;
       current_line := current_line g ++ [(x, y, w, h)];
       current_y := current_y g |}.
Proof. unfold group_word. by rewrite new_line_test. Qed.


Lemma extract_returns (gray_image binary_image : image) (lines : list image)
    (σ : heap) :
  ∃ features σ',
    extract_graphological_features gray_image binary_image lines σ =
      inr (features, σ') ∧
    σ' !! features = Some (fdict (features_of gray_image binary_image)).
Proof.
  eexists _, _. split; [ apply extract_graphological_features_run | ].
  apply lookup_insert_eq.
Qed.

(** C5.  For every gray image and binary mask the extractor returns a dict
    with exactly the seven feature keys, each bound to a number.  No
    statistic is taken of an empty sample, which is where numpy would yield
    nan; the library calls return numbers by their interface. *)
Theorem seven_numeric_features (gray_image binary_image : image)
    (lines : list image) (σ : heap) :
  ∃ features σ' fd,
    extract_graphological_features gray_image binary_image lines σ =
      inr (features, σ') ∧
    σ' !! features = Some fd ∧
    dkeys fd = [ "pressure"; "letter_size"; "slant"; "baseline_slope";
                 "word_spacing"; "line_spacing"; "left_margin" ] ∧
    ∀ k, k ∈ dkeys fd → ∃ x : Q, dget fd k = Some (VNum x).
Proof.
  destruct (extract_returns gray_image binary_image lines σ)
    as (features & σ' & Hrun & Hfd).
  exists features, σ', (fdict (features_of gray_image binary_image)).
  repeat split; [ done | done | ].
  intros k Hk. cbn in Hk.
  repeat (apply elem_of_cons in Hk as [-> | Hk]; [ by eexists | ]).
  by apply elem_of_nil in Hk.
Qed.

Lemma qualifying_short (ls : list (list bbox)) :
  Forall (λ line, (length line < 2)%nat) ls → qualifying ls = [].
Proof.
  induction 1 as [|line ls Hl Hls IH]; [ done | ].
  unfold qualifying in *. cbn [List.filter].
  destruct (Nat.ltb_spec 1 (length line)); [ lia | done ].
Qed.

Lemma no_retained_no_words (binary_image : image) :
  List.filter retained (findContours (dilate binary_image)) = [] →
  words_of binary_image = no_words ∧ sorted_boxes binary_image = [].
Proof.
  intros Hnone. unfold sorted_boxes, words_of.
  rewrite scan_words_spec. unfold slant_sample. rewrite Hnone. done.
Qed.

Lemma is_empty_false {A} (l : list A) : l ≠ [] → Np.is_empty l = false.
Proof. by destruct l. Qed.

Lemma is_empty_true {A} (l : list A) : l = [] → Np.is_empty l = true.
Proof. by intros ->. Qed.

(** C6.  Degenerate input is not an error: the extractor always returns,
    and
    - with no contours in the mask every feature keeps its default 0;
    - with no word box passing the size filter, letter size, slant, baseline
      slope, word spacing, line spacing and left margin keep their default
      0 while the pressure is still computed;
    - when every line has fewer than two words, baseline slope, word spacing
      and line spacing keep their default 0 while the other features are
      still computed;
    - when fewer than two lines have two words, line spacing keeps its
      default 0. *)
Theorem degenerate_input_keeps_defaults (gray_image binary_image : image)
    (lines : list image) (σ : heap) :
  ∃ features σ' fv,
    extract_graphological_features gray_image binary_image lines σ =
      inr (features, σ') ∧
    σ' !! features = Some (fdict fv) ∧
    fv = features_of gray_image binary_image ∧
    (findContours binary_image = [] → fv = zero_features) ∧
    (List.filter retained (findContours (dilate binary_image)) = [] →
       letter_size fv = 0 ∧ slant fv = 0 ∧ baseline_slope fv = 0 ∧
       word_spacing fv = 0 ∧ line_spacing fv = 0 ∧ left_margin fv = 0 ∧
       (findContours binary_image ≠ [] →
        pressure fv = pressure_of gray_image binary_image)) ∧
    (Forall (λ line, (length line < 2)%nat) (lines_of binary_image) →
       baseline_slope fv = 0 ∧ word_spacing fv = 0 ∧ line_spacing fv = 0 ∧
       (findContours binary_image ≠ [] →
        sorted_boxes binary_image ≠ [] →
        pressure fv = pressure_of gray_image binary_image ∧
        letter_size fv =
          median_or_zero
            (map inject_Z (heights (words_of binary_image))) ∧
        slant fv = median_or_zero (word_angles (words_of binary_image)) ∧
        left_margin fv =
          median_or_zero
            (map inject_Z (first_xs (lines_of binary_image))))) ∧
    ((length (qualifying (lines_of binary_image)) < 2)%nat →
       line_spacing fv = 0).
Proof.
  destruct (extract_returns gray_image binary_image lines σ)
    as (features & σ' & Hrun & Hfd).
  exists features, σ', (features_of gray_image binary_image).
  split; [ done | ]. split; [ done | ]. split; [ done | ].
  destruct (line_stats_spec _ _ _ (stats_of_run binary_image))
    as (Hmargins & Hslopes & Hys & Hgaps).
  cbn [no_stats left_margins baseline_slopes line_y_coords word_gaps
       length app Nat.add] in Hmargins, Hslopes, Hys, Hgaps.
  unfold features_of.
  split; [ | split; [ | split ] ].
  - intros ->%is_empty_true. reflexivity.
  - intros Hnone. destruct (no_retained_no_words _ Hnone) as [Hw Hb].
    destruct (Np.is_empty (findContours binary_image)) eqn:Hc.
    + do 6 (split; [ reflexivity | ]).
      intros Hne%is_empty_false. congruence.
    + cbv zeta. rewrite Hw, Hb. repeat split; reflexivity.
  - intros Hshort.
    pose proof (qualifying_short _ Hshort) as Hq.
    rewrite Hq in Hslopes, Hys. cbn [length] in Hslopes, Hys.
    apply length_zero_iff_nil in Hslopes.
    assert (Hd : Np.diff (line_y_coords (stats_of binary_image)) = [])
      by (apply diff_short; lia).
    destruct (Np.is_empty (findContours binary_image)) eqn:Hc.
    + do 3 (split; [ reflexivity | ]).
      intros Hne%is_empty_false. congruence.
    + cbv zeta. cbn [pressure letter_size slant baseline_slope
                     word_spacing line_spacing left_margin].
      rewrite Hslopes, Hd, (Hgaps Hshort).
      change (median_or_zero []) with 0.
      change (median_or_zero (map inject_Z [])) with 0.
      destruct (negb (Np.is_empty (sorted_boxes binary_image))) eqn:Hloc;
        do 3 (split; [ reflexivity | ]); intros _ Hne.
      * rewrite Hmargins. done.
      * apply is_empty_false in Hne. rewrite Hne in Hloc. discriminate.
  - intros Hfew.
    assert (Hd : Np.diff (line_y_coords (stats_of binary_image)) = [])
      by (apply diff_short; lia).
    destruct (Np.is_empty (findContours binary_image)); [ reflexivity | ].
    cbv zeta. cbn [line_spacing]. rewrite Hd.
    change (median_or_zero []) with 0. by destruct (negb _).
Qed.

(** C7.  A mask with ink whose only word contour has a bounding box of
    width 60 and height 60 at [(x, y)]: letter size 60, left margin [x], and
    word spacing, baseline slope and line spacing at their default 0. *)
Theorem single_word_box (gray_image binary_image : image)
    (lines : list image) (σ : heap) (c : contour) (x y : Z) :
  findContours binary_image ≠ [] →
  findContours (dilate binary_image) = [c] →
  boundingRect c = (x, y, 60, 60)%Z →
  ∃ features σ' fv,
    extract_graphological_features gray_image binary_image lines σ =
      inr (features, σ') ∧
    σ' !! features = Some (fdict fv) ∧
    letter_size fv = 60 ∧
    word_spacing fv = 0 ∧
    left_margin fv = inject_Z x ∧
    baseline_slope fv = 0 ∧
    line_spacing fv = 0.
Proof.
  intros Hink Hwords Hbox.
  destruct (extract_returns gray_image binary_image lines σ)
    as (features & σ' & Hrun & Hfd).
  exists features, σ', (features_of gray_image binary_image).
  split; [ done | ]. split; [ done | ].
  assert (Hscan : words_of binary_image =
                  {| word_bboxes := [(x, y, 60, 60)%Z]; heights := [60%Z];
                     word_angles := slant_sample [c] |}).
  { unfold words_of. rewrite Hwords, scan_words_spec.
    unfold retained. cbn [List.filter]. rewrite Hbox.
    change ((10 <? bw (x, y, 60, 60))%Z && (10 <? bh (x, y, 60, 60))%Z)
      with true.
    cbn [map]. by rewrite Hbox. }
  assert (Hsorted : sorted_boxes binary_image = [(x, y, 60, 60)%Z]).
  { unfold sorted_boxes. by rewrite Hscan. }
  assert (Hlines : lines_of binary_image = [[(x, y, 60, 60)%Z]]).
  { unfold lines_of. rewrite Hsorted. unfold group_lines.
    cbn [index lookup list_lookup mbind E_bind mret E_ret fold_left].
    rewrite group_word_rule. cbn [current_y by_ fst snd].
    rewrite Z.sub_diag. reflexivity. }
  assert (Hstats : stats_of binary_image =
                   {| left_margins := [x]; word_gaps := [];
                      baseline_slopes := []; line_y_coords := [] |}).
  { unfold stats_of. rewrite Hlines. reflexivity. }
  unfold features_of. rewrite (is_empty_false _ Hink). cbv zeta.
  rewrite Hscan, Hsorted, Hstats. repeat split; reflexivity.
Qed.

Lemma slant_of_features (gray_image binary_image : image) :
  slant (features_of gray_image binary_image) =
  if Np.is_empty (findContours binary_image) then 0
  else median_or_zero (slant_sample (findContours (dilate binary_image))).
Proof.
  unfold features_of, words_of. rewrite scan_words_spec.
  by destruct (Np.is_empty (findContours binary_image)).
Qed.

(** C8.  The slant sample holds, for the word boxes that pass the size
    filter, the minimum-area-rectangle angle with 90 added exactly when the
    box is taller than wide, kept only when its absolute value is strictly
    below 45.  The slant feature lies strictly between -45 and 45: it is
    the median of the sample when some angle is kept, and 0 otherwise. *)
Theorem slant_normalization (gray_image binary_image : image)
    (lines : list image) (σ : heap) :
  let word_contours := findContours (dilate binary_image) in
  ∃ features σ' fv,
    extract_graphological_features gray_image binary_image lines σ =
      inr (features, σ') ∧
    σ' !! features = Some (fdict fv) ∧
    word_angles (scan_words word_contours) = slant_sample word_contours ∧
    Forall (λ a, -45 < a ∧ a < 45) (slant_sample word_contours) ∧
    (-45 < slant fv ∧ slant fv < 45) ∧
    (slant_sample word_contours ≠ [] →
     findContours binary_image ≠ [] →
     slant fv = Np.median_of (slant_sample word_contours)) ∧
    (slant_sample word_contours = [] → slant fv = 0).
Proof.
  intros word_contours.
  destruct (extract_returns gray_image binary_image lines σ)
    as (features & σ' & Hrun & Hfd).
  exists features, σ', (features_of gray_image binary_image).
  split; [ done | ]. split; [ done | ].
  split; [ by rewrite scan_words_spec | ].
  split; [ apply slant_sample_bounds | ].
  rewrite slant_of_features. fold word_contours. unfold median_or_zero.
  split; [ | split ].
  - destruct (Np.is_empty (findContours binary_image)); [ split; lra | ].
    destruct (Np.is_empty (slant_sample word_contours)) eqn:Hs;
      [ split; lra | ].
    apply median_of_between; [ done | apply slant_sample_bounds ].
  - intros Hs%is_empty_false Hc%is_empty_false. by rewrite Hs, Hc.
  - intros ->. by destruct (Np.is_empty (findContours binary_image)).
Qed.

Import App.

Lemma analyse_run (gray_img bin_img : image) (lines : list image)
    (σ : heap) :
  let fv := features_of gray_img bin_img in
  ∃ f q d,
    analyse gray_img bin_img lines σ =
      inr ((f, q, d),
           <[d := descriptions fv]>
             (<[q := qdict (scores fv)]> (<[f := fdict fv]> σ))) ∧
    σ !! f = None ∧ σ !! q = None ∧ σ !! d = None ∧
    f ≠ q ∧ f ≠ d ∧ q ≠ d.
Proof.
  intros fv. unfold analyse.
  erewrite bind_inr by apply extract_graphological_features_run.
  set (f := fresh_loc σ). set (σf := <[f := fdict _]> σ).
  assert (Hf : σ !! f = None) by apply fresh_loc_None.
  erewrite bind_inr
    by (apply (get_personality_profile_run σf f fv), lookup_insert_eq).
  destruct (fresh_pair σf quantitative_init) as (Hq & Hd & Hqd).
  set (q := fresh_loc σf) in *.
  set (d := fresh_loc (<[q := quantitative_init]> σf)) in *.
  exists f, q, d. split; [ reflexivity | ].
  assert (f ≠ q) by (intros <-; unfold σf in Hq; by rewrite lookup_insert_eq in Hq).
  assert (f ≠ d) by (intros <-; unfold σf in Hd; by rewrite lookup_insert_eq in Hd).
  unfold σf in Hq, Hd. rewrite lookup_insert_ne in Hq, Hd by done.
  done.
Qed.

(** C9.  Running the pipeline twice on the same gray image, mask and lines,
    the second run starting in the heap the first one left, yields the same
    feature dict and the same quantitative and descriptive dicts.  Their
    contents are functions of the images alone, whatever the heap the run
    starts in; the second run allocates its own three objects and leaves
    those of the first run as they were. *)
Theorem pipeline_deterministic (gray_img bin_img : image)
    (lines : list image) (σ : heap) :
  let fd := fdict (features_of gray_img bin_img) in
  let qd := qdict (scores (features_of gray_img bin_img)) in
  let dd := descriptions (features_of gray_img bin_img) in
  ∃ f1 q1 d1 σ1 f2 q2 d2 σ2,
    analyse gray_img bin_img lines σ = inr ((f1, q1, d1), σ1) ∧
    analyse gray_img bin_img lines σ1 = inr ((f2, q2, d2), σ2) ∧
    σ1 !! f1 = Some fd ∧ σ1 !! q1 = Some qd ∧ σ1 !! d1 = Some dd ∧
    σ2 !! f2 = Some fd ∧ σ2 !! q2 = Some qd ∧ σ2 !! d2 = Some dd ∧
    σ2 !! f1 = Some fd ∧ σ2 !! q1 = Some qd ∧ σ2 !! d1 = Some dd ∧
    NoDup [f1; q1; d1; f2; q2; d2].
Proof.
  intros fd qd dd.
  destruct (analyse_run gray_img bin_img lines σ)
    as (f1 & q1 & d1 & Hrun1 & Hf1 & Hq1 & Hd1 & Hfq1 & Hfd1 & Hqd1).
  fold fd qd dd in Hrun1.
  set (σ1 := <[d1 := dd]> (<[q1 := qd]> (<[f1 := fd]> σ))) in *.
  destruct (analyse_run gray_img bin_img lines σ1)
    as (f2 & q2 & d2 & Hrun2 & Hf2 & Hq2 & Hd2 & Hfq2 & Hfd2 & Hqd2).
  fold fd qd dd in Hrun2.
  set (σ2 := <[d2 := dd]> (<[q2 := qd]> (<[f2 := fd]> σ1))) in *.
  exists f1, q1, d1, σ1, f2, q2, d2, σ2.
  split; [ exact Hrun1 | ]. split; [ exact Hrun2 | ].
  assert (H1f : σ1 !! f1 = Some fd) by (unfold σ1; by simplify_map_eq).
  assert (H1q : σ1 !! q1 = Some qd) by (unfold σ1; by simplify_map_eq).
  assert (H1d : σ1 !! d1 = Some dd) by (unfold σ1; by simplify_map_eq).
  assert (Hne : ∀ a b v, σ1 !! a = Some v → σ1 !! b = None → b ≠ a)
    by (intros a b v Ha Hb ->; congruence).
  pose proof (Hne _ _ _ H1f Hf2). pose proof (Hne _ _ _ H1f Hq2).
  pose proof (Hne _ _ _ H1f Hd2). pose proof (Hne _ _ _ H1q Hf2).
  pose proof (Hne _ _ _ H1q Hq2). pose proof (Hne _ _ _ H1q Hd2).
  pose proof (Hne _ _ _ H1d Hf2). pose proof (Hne _ _ _ H1d Hq2).
  pose proof (Hne _ _ _ H1d Hd2).
  unfold σ2.
  repeat split; try done; try (by simplify_map_eq).
  repeat (apply NoDup_cons; split;
          [ rewrite ?elem_of_cons, elem_of_nil; intuition congruence | ]).
  apply NoDup_nil_2.
Qed.

End ExtractorProofs.

(** ** Profiles of particular feature vectors *)

Lemma returns_scores_iff (σ : heap) (features : loc) (fv : FeatureVector)
    (t : TraitScores) :
  σ !! features = Some (fdict fv) →
  returns_scores σ features t ↔
  Sociability (scores fv) == Sociability t ∧ Focus (scores fv) == Focus t ∧
  Intensity (scores fv) == Intensity t ∧ Optimism (scores fv) == Optimism t ∧
  Discipline (scores fv) == Discipline t ∧
  Spontaneity (scores fv) == Spontaneity t.
Proof.
  intros Hr. destruct (fresh_pair σ quantitative_init) as (Hq & Hd & Hqd).
  pose proof (get_personality_profile_run σ features fv Hr) as Hrun.
  split.
  - intros (q & d & σ' & qd & Hrun' & Hlook & _ & t' & -> & Heq).
    rewrite Hrun in Hrun'. injection Hrun' as <- <- <-.
    rewrite frame_lookup_q in Hlook by done.
    destruct t' as [s f i o di sp].
    injection Hlook as <- <- <- <- <- <-. exact Heq.
  - intros Heq. eexists _, _, _, _. split; [ exact Hrun | ].
    split; [ by apply frame_lookup_q | ]. split; [ reflexivity | ].
    exists (scores fv). split; [ reflexivity | exact Heq ].
Qed.

(** C2, as stated: the all-default feature vector does not get the all-0.5
    profile with Sociability 0.4. *)
Lemma blank_profile_claimed_wrong :
  ¬ returns_scores {[ 1%positive := fdict zero_features ]} 1%positive
      blank_profile_claimed.
Proof.
  rewrite (returns_scores_iff _ _ zero_features) by reflexivity.
  intros (_ & Hfocus & _). vm_compute in Hfocus. discriminate.
Qed.

(** C2, amended.  For the all-default feature vector (every feature 0) the
    quantitative profile is Sociability 0.4, Focus 0.9, Intensity 0.8,
    Optimism 0.5, Discipline 1.0 and Spontaneity 0.9. *)
Theorem blank_profile_scores (σ : heap) (features : loc) :
  σ !! features = Some (fdict zero_features) →
  returns_scores σ features blank_profile.
Proof.
  intros Hr. apply (returns_scores_iff _ _ zero_features _ Hr).
  repeat split; reflexivity.
Qed.

Lemma blank_profile_scores_witness :
  returns_scores {[ 1%positive := fdict zero_features ]} 1%positive
    blank_profile.
Proof. apply blank_profile_scores. reflexivity. Defined.

(** C3, as stated: the scenario does not get Sociability 0.8. *)
Lemma scenario_profile_claimed_wrong :
  ¬ returns_scores {[ 1%positive := fdict scenario_features ]} 1%positive
      scenario_profile_claimed.
Proof.
  rewrite (returns_scores_iff _ _ scenario_features) by reflexivity.
  intros (Hsoc & _). vm_compute in Hsoc. discriminate.
Qed.

(** C3, amended.  For the scenario feature vector the quantitative profile
    is Sociability 1.0 (0.8 for the slant, plus 0.2 because the word spacing
    5 is below half the letter size 30), Focus 0.5, Intensity 0.8,
    Optimism 0.8, Discipline 0.3 and Spontaneity 0.2. *)
Theorem scenario_profile_scores (σ : heap) (features : loc) :
  σ !! features = Some (fdict scenario_features) →
  returns_scores σ features scenario_profile.
Proof.
  intros Hr. apply (returns_scores_iff _ _ scenario_features _ Hr).
  repeat split; reflexivity.
Qed.

Lemma scenario_profile_scores_witness :
  returns_scores {[ 1%positive := fdict scenario_features ]} 1%positive
    scenario_profile.
Proof. apply scenario_profile_scores. reflexivity. Defined.

(** C10.  A call on a feature dict returns, leaves that dict as it was, as
    every other object of the caller's heap, and the two dicts it returns
    are objects the caller's heap did not hold. *)
Theorem input_features_unchanged (σ : heap) (features : loc)
    (fv : FeatureVector) :
  σ !! features = Some (fdict fv) →
  ∃ q d σ',
    get_personality_profile features σ = inr ((q, d), σ') ∧
    σ' !! features = Some (fdict fv) ∧
    σ !! q = None ∧ σ !! d = None ∧
    q ≠ features ∧ d ≠ features ∧
    ∀ l, is_Some (σ !! l) → σ' !! l = σ !! l.
Proof.
  intros Hr. destruct (fresh_pair σ quantitative_init) as (Hq & Hd & Hqd).
  eexists _, _, _. split; [ by apply get_personality_profile_run | ].
  set (q := fresh_loc σ) in *.
  set (d := fresh_loc (<[q := quantitative_init]> σ)) in *.
  assert (Hold : ∀ l, is_Some (σ !! l) →
                 frame σ q d (qdict (scores fv)) (descriptions fv) !! l =
                 σ !! l).
  { intros l [v Hl]. unfold frame.
    rewrite !lookup_insert_ne; [ done | | ]; intros ->; congruence. }
  split; [ rewrite Hold by eauto; done | ].
  repeat split; try done; intros ->; congruence.
Qed.

Lemma input_features_unchanged_witness :
  ∃ q d σ',
    get_personality_profile 1%positive
      {[ 1%positive := fdict adversarial_features ]} = inr ((q, d), σ') ∧
    σ' !! 1%positive = Some (fdict adversarial_features) ∧
    ({[ 1%positive := fdict adversarial_features ]} : heap) !! q = None ∧
    ({[ 1%positive := fdict adversarial_features ]} : heap) !! d = None ∧
    q ≠ 1%positive ∧ d ≠ 1%positive ∧
    ∀ l, is_Some (({[ 1%positive := fdict adversarial_features ]} : heap)
                    !! l) →
         σ' !! l =
         ({[ 1%positive := fdict adversarial_features ]} : heap) !! l.
Proof.
  apply (input_features_unchanged _ _ adversarial_features). reflexivity.
Defined.

(** ** The theorems at concrete inputs *)

Import Extractor.

Lemma single_word_box_witness :
  ∃ features σ' fv,
    extract_graphological_features (V := OneBlob.vision)
      OneBlob.block OneBlob.block [] ∅ = inr (features, σ') ∧
    σ' !! features = Some (fdict fv) ∧
    letter_size fv = 60 ∧
    word_spacing fv = 0 ∧
    left_margin fv = inject_Z 0 ∧
    baseline_slope fv = 0 ∧
    line_spacing fv = 0.
Proof.
  apply (single_word_box (V := OneBlob.vision) OneBlob.block OneBlob.block
           [] ∅ (0, 0, 60, 60)%Z 0 0).
  - vm_compute. discriminate.
  - vm_compute. reflexivity.
  - reflexivity.
Defined.
Lemma slant_normalization_witness :
  ∃ features σ' fv,
    extract_graphological_features (V := OneBlob.vision)
      OneBlob.block OneBlob.block [] ∅ = inr (features, σ') ∧
    σ' !! features = Some (fdict fv) ∧
    slant fv =
      Np.median_of
        (slant_sample (V := OneBlob.vision)
           (findContours (Vision := OneBlob.vision)
              (dilate (Vision := OneBlob.vision) OneBlob.block))) ∧
    -45 < slant fv ∧ slant fv < 45.
Proof.
  destruct (slant_normalization (V := OneBlob.vision)
              OneBlob.block OneBlob.block [] ∅)
    as (features & σ' & fv & Hrun & Hfd & _ & _ & Hin & Hmed & _).
  exists features, σ', fv.
  split; [ exact Hrun | ]. split; [ exact Hfd | ].
  split; [ | exact Hin ].
  apply Hmed; vm_compute; discriminate.
Defined.
Lemma degenerate_input_keeps_defaults_witness :
  features_of (V := OneBlob.vision) OneBlob.blank OneBlob.blank =
    zero_features ∧
  (letter_size (features_of (V := OneBlob.vision)
                  OneBlob.speck OneBlob.speck) = 0 ∧
   left_margin (features_of (V := OneBlob.vision)
                  OneBlob.speck OneBlob.speck) = 0 ∧
   pressure (features_of (V := OneBlob.vision)
               OneBlob.speck OneBlob.speck) =
     pressure_of OneBlob.speck OneBlob.speck) ∧
  (baseline_slope (features_of (V := OneBlob.vision)
                     OneBlob.block OneBlob.block) = 0 ∧
   word_spacing (features_of (V := OneBlob.vision)
                   OneBlob.block OneBlob.block) = 0 ∧
   line_spacing (features_of (V := OneBlob.vision)
                   OneBlob.block OneBlob.block) = 0).
Proof.
  destruct (degenerate_input_keeps_defaults (V := OneBlob.vision)
              OneBlob.blank OneBlob.blank [] ∅)
    as (_ & _ & fv1 & _ & _ & -> & Hblank & _).
  destruct (degenerate_input_keeps_defaults (V := OneBlob.vision)
              OneBlob.speck OneBlob.speck [] ∅)
    as (_ & _ & fv2 & _ & _ & -> & _ & Hspeck & _).
  destruct (degenerate_input_keeps_defaults (V := OneBlob.vision)
              OneBlob.block OneBlob.block [] ∅)
    as (_ & _ & fv3 & _ & _ & -> & _ & _ & Hshort & Hfew).
  split; [ apply Hblank; reflexivity | ].
  split.
  - destruct Hspeck as (Hl & _ & _ & _ & _ & Hm & Hp); [ reflexivity | ].
    split; [ exact Hl | ]. split; [ exact Hm | ].
    apply Hp. vm_compute. discriminate.
  - destruct Hshort as (Hb & Hw & _).
    { vm_compute. repeat constructor. }
    split; [ exact Hb | ]. split; [ exact Hw | ].
    apply Hfew. vm_compute. lia.
Defined.

(** * Further properties *)

(** ** The scorer *)

Import ScorerFacts.

Lemma frame_lookup_d (σ : heap) (q d : loc) (qd dd : dict) :
  frame σ q d qd dd !! d = Some dd.
Proof. unfold frame. apply lookup_insert_eq. Qed.

Lemma frame_lookup_old (σ : heap) (q d l : loc) (qd dd : dict) :
  σ !! q = None → σ !! d = None → is_Some (σ !! l) →
  frame σ q d qd dd !! l = σ !! l.
Proof.
  intros Hq Hd [v Hl]. unfold frame.
  rewrite !lookup_insert_ne; [ done | | ]; intros ->; congruence.
Qed.

(** X1.  The scorer reads six keys only.  On any dict that binds "slant",
    "word_spacing", "letter_size", "pressure", "baseline_slope" and
    "left_margin" to numbers it returns, whatever else the dict holds and
    whether or not it has "line_spacing"; two dicts that agree on these six
    keys get the same quantitative and the same descriptive dict. *)
Theorem profile_reads_six_keys (σ1 σ2 : heap) (r1 r2 : loc)
    (fd1 fd2 : dict) (fv : FeatureVector) :
  σ1 !! r1 = Some fd1 →
  σ2 !! r2 = Some fd2 →
  reads fd1 fv →
  (∀ k, k ∈ read_order → dget fd2 k = dget fd1 k) →
  ∃ q1 d1 σ1' q2 d2 σ2' qd dd,
    get_personality_profile r1 σ1 = inr ((q1, d1), σ1') ∧
    get_personality_profile r2 σ2 = inr ((q2, d2), σ2') ∧
    σ1' !! q1 = Some qd ∧ σ2' !! q2 = Some qd ∧
    σ1' !! d1 = Some dd ∧ σ2' !! d2 = Some dd ∧
    qd = qdict (scores fv) ∧ dd = descriptions fv.
Proof.
  intros Hr1 Hr2 Hreads Hagree.
  assert (Hreads2 : reads fd2 fv).
  { destruct Hreads as (H1 & H2 & H3 & H4 & H5 & H6).
    unfold reads. rewrite !Hagree by (unfold read_order; set_solver).
    done. }
  destruct (fresh_pair σ1 quantitative_init) as (Hq1 & Hd1 & Hqd1).
  destruct (fresh_pair σ2 quantitative_init) as (Hq2 & Hd2 & Hqd2).
  eexists _, _, _, _, _, _, _, _.
  split; [ by apply (get_personality_profile_reads σ1 r1 fd1 fv) | ].
  split; [ by apply (get_personality_profile_reads σ2 r2 fd2 fv) | ].
  rewrite !frame_lookup_q by done. rewrite !frame_lookup_d. done.
Qed.

Lemma profile_reads_six_keys_witness :
  ∃ q1 d1 σ1' q2 d2 σ2' qd dd,
    get_personality_profile 1%positive
      {[ 1%positive := fdict scenario_features ]} = inr ((q1, d1), σ1') ∧
    get_personality_profile 1%positive
      {[ 1%positive := partial_features ]} = inr ((q2, d2), σ2') ∧
    σ1' !! q1 = Some qd ∧ σ2' !! q2 = Some qd ∧
    σ1' !! d1 = Some dd ∧ σ2' !! d2 = Some dd ∧
    qd = qdict (scores scenario_features) ∧
    dd = descriptions scenario_features.
Proof.
  apply (profile_reads_six_keys _ _ _ _ (fdict scenario_features)
           partial_features scenario_features).
  - reflexivity.
  - reflexivity.
  - repeat split.
  - intros k Hk. unfold read_order in Hk.
    repeat (apply elem_of_cons in Hk as [-> | Hk]; [ reflexivity | ]).
    by apply elem_of_nil in Hk.
Defined.

Lemma bind_inl {A B} (m : M A) (f : A → M B) (σ : heap) (e : exn) :
  m σ = inl e → (m ≫= f) σ = inl e.
Proof. intros Hm. unfold mbind, M_bind. by rewrite Hm. Qed.

Section FrameFailures.
Context (σ : heap) (r q d : loc) (fd : dict).
Hypothesis Hr : σ !! r = Some fd.
Hypothesis Hq : σ !! q = None.
Hypothesis Hd : σ !! d = None.
Hypothesis Hqd : q ≠ d.

Lemma getnum_missing k qd dd :
  dget fd k = None →
  getnum r k (frame σ q d qd dd) = inl (KeyError k).
Proof.
  intros Hk. unfold getnum, mbind, M_bind, getitem.
  by rewrite (frame_features σ r q d fd Hr Hq Hd Hqd), Hk.
Qed.

Ltac fstep :=
  first
    [ rewrite bind_assoc_run
    | erewrite bind_inr; [ | first
        [ eapply getnum_features; eassumption
        | eapply getnum_quantitative; [ eassumption | reflexivity ]
        | eapply setitem_quantitative; eassumption
        | eapply setitem_descriptive ] ] ].

Ltac ffail :=
  repeat rewrite bind_assoc_run;
  first [ erewrite bind_inl; [ reflexivity | by apply getnum_missing ]
        | by apply getnum_missing ].

Lemma rule_sociability_no_slant qd dd :
  dget fd "slant" = None →
  rule_sociability r q d (frame σ q d qd dd) = inl (KeyError "slant").
Proof. intros Hk. unfold rule_sociability. ffail. Qed.

Lemma rule_sociability_no_spacing x t dd :
  dget fd "slant" = Some (VNum x) →
  dget fd "word_spacing" = None →
  rule_sociability r q d (frame σ q d (qdict t) dd) =
  inl (KeyError "word_spacing").
Proof.
  intros Hslant Hk. destruct t. unfold rule_sociability.
  do 2 fstep.
  destruct (Num.gtb x 5); [ | do 2 fstep; destruct (Num.ltb x (-5)) ];
    repeat fstep; ffail.
Qed.

Lemma rule_sociability_no_size x y t dd :
  dget fd "slant" = Some (VNum x) →
  dget fd "word_spacing" = Some (VNum y) →
  dget fd "letter_size" = None →
  rule_sociability r q d (frame σ q d (qdict t) dd) =
  inl (KeyError "letter_size").
Proof.
  intros Hslant Hspacing Hk. destruct t. unfold rule_sociability.
  do 2 fstep.
  destruct (Num.gtb x 5); [ | do 2 fstep; destruct (Num.ltb x (-5)) ];
    repeat fstep; ffail.
Qed.

Lemma rule_intensity_no_pressure qd dd :
  dget fd "pressure" = None →
  rule_intensity r q d (frame σ q d qd dd) = inl (KeyError "pressure").
Proof. intros Hk. unfold rule_intensity. ffail. Qed.

Lemma rule_optimism_no_slope qd dd :
  dget fd "baseline_slope" = None →
  rule_optimism r q d (frame σ q d qd dd) = inl (KeyError "baseline_slope").
Proof. intros Hk. unfold rule_optimism. ffail. Qed.

Lemma rule_spontaneity_no_margin qd dd :
  dget fd "left_margin" = None →
  rule_spontaneity r q d (frame σ q d qd dd) = inl (KeyError "left_margin").
Proof. intros Hk. unfold rule_spontaneity. ffail. Qed.

End FrameFailures.

Lemma read_key_cases (fd : dict) (k : string) :
  numeric fd → k ∈ read_order →
  dget fd k = None ∨ ∃ x, dget fd k = Some (VNum x).
Proof.
  intros Hnum Hk. destruct (dget fd k) as [v|] eqn:Hv; [ | by left ].
  destruct (Hnum k v Hk Hv) as [x ->]. right. by exists x.
Qed.

(** X2.  A feature dict that lacks one of the six keys makes the scorer
    raise [KeyError] for the first missing key in the order the rules read
    them: slant, word_spacing, letter_size, pressure, baseline_slope,
    left_margin. *)
Theorem missing_key_raises (σ : heap) (features : loc) (fd : dict)
    (k : string) :
  σ !! features = Some fd →
  numeric fd →
  first_missing fd = Some k →
  get_personality_profile features σ = inl (KeyError k).
Proof.
  intros Hr Hnum Hk.
  destruct (fresh_pair σ quantitative_init) as (Hq & Hd & Hqd).
  set (q := fresh_loc σ) in *.
  set (d := fresh_loc (<[q := quantitative_init]> σ)) in *.
  unfold get_personality_profile.
  erewrite bind_inr by reflexivity.
  erewrite bind_inr by reflexivity.
  fold q. fold d.
  change (<[d := []]> (<[q := quantitative_init]> σ))
    with (frame σ q d (qdict {| Sociability := 0.5; Focus := 0.5;
                                 Intensity := 0.5; Optimism := 0.5;
                                 Discipline := 0.5; Spontaneity := 0.5 |}) []).
  unfold first_missing, read_order, missing in Hk. cbn [find] in Hk.
  destruct (read_key_cases fd "slant" Hnum) as [H1 | [xs H1]];
    [ unfold read_order; set_solver | | ]; rewrite H1 in Hk.
  { injection Hk as <-. apply bind_inl.
    by apply (rule_sociability_no_slant σ features q d fd). }
  destruct (read_key_cases fd "word_spacing" Hnum) as [H2 | [xw H2]];
    [ unfold read_order; set_solver | | ]; rewrite H2 in Hk.
  { injection Hk as <-. apply bind_inl.
    by apply (rule_sociability_no_spacing σ features q d fd Hr Hq Hd Hqd xs). }
  destruct (read_key_cases fd "letter_size" Hnum) as [H3 | [xl H3]];
    [ unfold read_order; set_solver | | ]; rewrite H3 in Hk.
  { injection Hk as <-. apply bind_inl.
    by apply (rule_sociability_no_size σ features q d fd Hr Hq Hd Hqd xs xw). }
  set (fv := {| pressure := 0; letter_size := xl; slant := xs;
                baseline_slope := 0; word_spacing := xw; line_spacing := 0;
                left_margin := 0 |}).
  erewrite bind_inr
    by apply (rule_sociability_run σ features q d fd fv Hr Hq Hd Hqd H1 H2 H3).
  erewrite bind_inr
    by apply (rule_focus_run σ features q d fd fv Hr Hq Hd Hqd H3).
  destruct (read_key_cases fd "pressure" Hnum) as [H4 | [xp H4]];
    [ unfold read_order; set_solver | | ]; rewrite H4 in Hk.
  { injection Hk as <-. apply bind_inl.
    by apply (rule_intensity_no_pressure σ features q d fd). }
  set (fv' := {| pressure := xp; letter_size := xl; slant := xs;
                 baseline_slope := 0; word_spacing := xw; line_spacing := 0;
                 left_margin := 0 |}).
  erewrite bind_inr
    by apply (rule_intensity_run σ features q d fd fv' Hr Hq Hd Hqd H4).
  destruct (read_key_cases fd "baseline_slope" Hnum) as [H5 | [xb H5]];
    [ unfold read_order; set_solver | | ]; rewrite H5 in Hk.
  { injection Hk as <-. apply bind_inl.
    by apply (rule_optimism_no_slope σ features q d fd). }
  set (fv'' := {| pressure := xp; letter_size := xl; slant := xs;
                  baseline_slope := xb; word_spacing := xw;
                  line_spacing := 0; left_margin := 0 |}).
  erewrite bind_inr
    by apply (rule_optimism_run σ features q d fd fv'' Hr Hq Hd Hqd H5).
  erewrite bind_inr
    by apply (rule_discipline_run σ features q d fd fv'' Hr Hq Hd Hqd H1 H5).
  destruct (read_key_cases fd "left_margin" Hnum) as [H6 | [xm H6]];
    [ unfold read_order; set_solver | | ]; rewrite H6 in Hk.
  { injection Hk as <-. apply bind_inl.
    by apply (rule_spontaneity_no_margin σ features q d fd). }
  discriminate.
Qed.

Lemma missing_key_raises_witness :
  get_personality_profile 1%positive
    {[ 1%positive := no_pressure_features ]} = inl (KeyError "pressure").
Proof.
  apply (missing_key_raises _ _ no_pressure_features).
  - reflexivity.
  - intros k v Hk Hv. unfold read_order in Hk.
    repeat (apply elem_of_cons in Hk as [-> | Hk];
            [ cbn in Hv; first [ discriminate
                               | injection Hv as <-; by eexists ] | ]).
    by apply elem_of_nil in Hk.
  - reflexivity.
Defined.

Lemma rule_scores_clipped (fv : FeatureVector) : scores fv = rule_scores fv.
Proof.
  unfold scores, rule_scores. f_equal.
  - unfold sociability_score.
    destruct (Num.gtb (slant fv) 5); [ | destruct (Num.ltb (slant fv) (-5)) ];
      (destruct (Num.gtb (word_spacing fv) (letter_size fv));
         [ | destruct (Num.ltb (word_spacing fv) (letter_size fv * 0.5)) ]);
      reflexivity.
  - unfold focus_score.
    destruct (Num.gtb _ _); [ | destruct (Num.ltb _ _) ]; reflexivity.
  - unfold intensity_score.
    destruct (Num.ltb _ _); [ | destruct (Num.gtb _ _) ]; reflexivity.
  - unfold optimism_score.
    destruct (Num.ltb _ _); [ | destruct (Num.gtb _ _) ]; reflexivity.
  - unfold discipline_score.
    destruct (_ && _); destruct (_ && _); reflexivity.
  - unfold spontaneity_score.
    destruct (Num.gtb _ _); [ | destruct (Num.ltb _ _) ]; reflexivity.
Qed.

(** X3.  The final [np.clip] changes no score: the values the rules assign
    already lie within [0.1, 1.0], and the quantitative dict holds exactly
    those values. *)
Theorem clip_changes_nothing (σ : heap) (features : loc)
    (fv : FeatureVector) :
  σ !! features = Some (fdict fv) →
  ∃ q d σ',
    get_personality_profile features σ = inr ((q, d), σ') ∧
    σ' !! q = Some (qdict (rule_scores fv)) ∧
    ∀ k v, dget (qdict (rule_scores fv)) k = Some v →
           ∃ x, v = VNum x ∧ 0.1 <= x ∧ x <= 1.0.
Proof.
  intros Hr. destruct (fresh_pair σ quantitative_init) as (Hq & Hd & Hqd).
  eexists _, _, _. split; [ by apply get_personality_profile_run | ].
  rewrite frame_lookup_q by done. rewrite <- rule_scores_clipped.
  split; [ reflexivity | ].
  intros k v Hk. unfold scores, qdict in Hk.
  cbn [dget Sociability Focus Intensity Optimism Discipline Spontaneity]
    in Hk.
  repeat (destruct (String.eqb k _);
          [ injection Hk as <-; eexists; split;
            [ reflexivity | apply clip_bounds ] | ]).
  discriminate.
Qed.

Lemma clip_changes_nothing_witness :
  ∃ q d σ',
    get_personality_profile 1%positive
      {[ 1%positive := fdict adversarial_features ]} = inr ((q, d), σ') ∧
    σ' !! q = Some (qdict (rule_scores adversarial_features)) ∧
    ∀ k v, dget (qdict (rule_scores adversarial_features)) k = Some v →
           ∃ x, v = VNum x ∧ 0.1 <= x ∧ x <= 1.0.
Proof.
  apply (clip_changes_nothing _ _ adversarial_features). reflexivity.
Defined.

(** X4.  The descriptive dict holds text only, under the keys "Outlook",
    "Focus", "Intensity" and "Mood" always, "Social Type" exactly when the
    spacing rule fires and "Planning" exactly when the margin rule fires, in
    this order; Discipline never gets a description, and no key is a trait
    name other than "Focus" and "Intensity". *)
Theorem descriptive_labels (σ : heap) (features : loc) (fv : FeatureVector) :
  σ !! features = Some (fdict fv) →
  ∃ q d σ' dd,
    get_personality_profile features σ = inr ((q, d), σ') ∧
    σ' !! d = Some dd ∧
    dkeys dd =
      ["Outlook"] ++
      (if spacing_fires fv then ["Social Type"] else []) ++
      ["Focus"; "Intensity"; "Mood"] ++
      (if margin_fires fv then ["Planning"] else []) ∧
    (∀ k v, dget dd k = Some v → ∃ s, v = VStr s) ∧
    dget dd "Discipline" = None ∧ dget dd "Sociability" = None ∧
    dget dd "Optimism" = None ∧ dget dd "Spontaneity" = None.
Proof.
  intros Hr.
  eexists _, _, _, _. split; [ by apply get_personality_profile_run | ].
  rewrite frame_lookup_d. split; [ reflexivity | ].
  unfold descriptions, spontaneity_labels, optimism_labels,
    intensity_labels, focus_labels, sociability_labels, spacing_fires,
    margin_fires.
  destruct (Num.gtb (word_spacing fv) (letter_size fv));
    [ | destruct (Num.ltb (word_spacing fv) (letter_size fv * 0.5)) ];
    (destruct (Num.gtb (left_margin fv) 40);
       [ | destruct (Num.ltb (left_margin fv) 20) ]);
    (split; [ reflexivity | ]);
    (split; [ | repeat split; reflexivity ]);
    intros k v Hk; cbn [dset dget String.eqb Ascii.eqb Bool.eqb] in Hk;
    repeat (destruct (String.eqb k _);
            [ injection Hk as <-; by eexists | ]);
    discriminate.
Qed.

Lemma descriptive_labels_witness :
  ∃ q d σ' dd,
    get_personality_profile 1%positive
      {[ 1%positive := fdict scenario_features ]} = inr ((q, d), σ') ∧
    σ' !! d = Some dd ∧
    dkeys dd =
      ["Outlook"] ++
      (if spacing_fires scenario_features then ["Social Type"] else []) ++
      ["Focus"; "Intensity"; "Mood"] ++
      (if margin_fires scenario_features then ["Planning"] else []) ∧
    (∀ k v, dget dd k = Some v → ∃ s, v = VStr s) ∧
    dget dd "Discipline" = None ∧ dget dd "Sociability" = None ∧
    dget dd "Optimism" = None ∧ dget dd "Spontaneity" = None.
Proof.
  apply (descriptive_labels _ _ scenario_features). reflexivity.
Defined.

(** ** Sorting and medians *)

Import ExtractorFacts.

Lemma insert_by_perm {A} (le : A → A → bool) (a : A) (l : list A) :
  Np.insert_by le a l ≡ₚ a :: l.
Proof.
  induction l as [|b l IH]; simpl; [ done | ].
  destruct (le a b); [ done | ]. rewrite IH. apply perm_swap.
Qed.

Lemma sort_by_perm {A} (le : A → A → bool) (l : list A) :
  Np.sort_by le l ≡ₚ l.
Proof.
  induction l as [|a l IH]; simpl; [ done | ].
  by rewrite insert_by_perm, IH.
Qed.

Section SortedByKey.
Context {A : Type} (key : A → Z).

Lemma insert_by_key_sorted (a : A) (l : list A) :
  StronglySorted (λ a b, (key a ≤ key b)%Z) l →
  StronglySorted (λ a b, (key a ≤ key b)%Z)
    (Np.insert_by (λ a b, (key a <=? key b)%Z) a l).
Proof.
  induction 1 as [|b l Hl IH Hb]; simpl.
  - repeat constructor.
  - destruct (Z.leb_spec (key a) (key b)) as [Hab|Hab].
    + constructor; [ by constructor | ].
      constructor; [ exact Hab | ].
      eapply Forall_impl; [ exact Hb | ]. intros c Hc. cbn beta in *. lia.
    + constructor; [ exact IH | ].
      rewrite insert_by_perm. constructor; [ lia | exact Hb ].
Qed.

Lemma sort_by_key_sorted (l : list A) :
  StronglySorted (λ a b, (key a ≤ key b)%Z)
    (Np.sort_by (λ a b, (key a <=? key b)%Z) l).
Proof.
  induction l as [|a l IH]; simpl; [ constructor | ].
  by apply insert_by_key_sorted.
Qed.

End SortedByKey.

(** The median of a non-empty sample has every property that all the
    sample has and that the mean of two numbers inherits. *)
Lemma median_of_convex (P : Q → Prop) (l : list Q) :
  (∀ a b, P a → P b → P ((a + b) / 2)) →
  Np.is_empty l = false →
  Forall P l →
  P (Np.median_of l).
Proof.
  intros Hmid Hne Hl. unfold Np.median_of.
  apply is_empty_length in Hne.
  pose proof (sort_by_Forall _ Qle_bool l Hl) as Hs.
  pose proof (sort_by_length Qle_bool l) as Hlen.
  set (s := Np.sort_by Qle_bool l) in *. set (n := length s) in *.
  assert (Hn : (0 < n)%nat) by lia.
  assert (Hhalf : (n / 2 < n)%nat) by (apply Nat.div_lt; lia).
  destruct (Nat.even n).
  - apply Hmid; apply Forall_nth_default; try done; lia.
  - by apply Forall_nth_default.
Qed.

Lemma median_or_zero_cases (P : Q → Prop) (l : list Q) :
  (∀ a b, P a → P b → P ((a + b) / 2)) →
  Forall P l →
  median_or_zero l = 0 ∨ P (median_or_zero l).
Proof.
  intros Hmid Hl. unfold median_or_zero.
  destruct (Np.is_empty l) eqn:Hne; [ by left | right ].
  by apply median_of_convex.
Qed.

Lemma midpoint_above (lo a b : Q) : lo < a → lo < b → lo < (a + b) / 2.
Proof. intros. apply Qlt_shift_div_l; lra. Qed.

(** ** The extractor *)

Lemma mask_select_Forall (P : Z → Prop) (gray_image binary_image : image) :
  Forall (Forall P) gray_image →
  Forall P (mask_select gray_image binary_image).
Proof.
  unfold mask_select. intros Hg. revert binary_image.
  induction Hg as [|grow gray Hrow Hg IH]; intros [|brow binary];
    cbn [zip_with concat]; try constructor.
  apply Forall_app. split; [ | apply IH ].
  clear IH Hg. revert brow.
  induction Hrow as [|g grow Hg Hrow IH]; intros [|b brow];
    cbn [zip zip_with flat_map]; try constructor.
  apply Forall_app. split; [ | apply IH ].
  cbn [fst snd]. destruct (b =? 255)%Z; [ | constructor ].
  constructor; [ exact Hg | constructor ].
Qed.

Lemma any_false_sum (l : list Z) : Np.any l = false → Np.sumZ l = 0%Z.
Proof.
  induction l as [|p l IH]; [ done | ]. cbn [Np.any existsb Np.sumZ fold_right].
  intros [Hp Hl]%orb_false_iff. apply negb_false_iff, Z.eqb_eq in Hp.
  rewrite Hp. simpl. by apply IH.
Qed.

Lemma sumZ_bounds (l : list Z) :
  Forall (λ p : Z, (0 ≤ p ≤ 255)%Z) l →
  (0 ≤ Np.sumZ l ≤ 255 * Z.of_nat (length l))%Z.
Proof.
  induction 1 as [|p l Hp Hl IH]; cbn [Np.sumZ fold_right length]; [ lia | ].
  unfold Np.sumZ in IH. lia.
Qed.

Lemma mean_of_bounds (l : list Z) :
  Np.is_empty l = false →
  Forall (λ p : Z, (0 ≤ p ≤ 255)%Z) l →
  0 <= Np.mean_of l ∧ Np.mean_of l <= 255.
Proof.
  intros Hne Hl. apply is_empty_length in Hne.
  pose proof (sumZ_bounds l Hl) as [Hlo Hhi]. unfold Np.mean_of.
  assert (Hn : 0 < inject_Z (Z.of_nat (length l))).
  { change 0 with (inject_Z 0). rewrite <- Zlt_Qlt. lia. }
  split.
  - apply Qle_shift_div_l; [ done | ]. rewrite Qmult_0_l.
    change 0 with (inject_Z 0). by rewrite <- Zle_Qle.
  - apply Qle_shift_div_r; [ done | ].
    change 255 with (inject_Z 255). rewrite <- inject_Z_mult, <- Zle_Qle.
    done.
Qed.

Lemma mean_of_zero_sum (l : list Z) : Np.sumZ l = 0%Z → Np.mean_of l == 0.
Proof. intros Hs. unfold Np.mean_of. rewrite Hs. reflexivity. Qed.

Section ExtractorFactsProofs.
Context {V : Vision}.

(** X5.  When the mask has contours, the pressure is the mean gray value
    of the pixels under the mask whenever there is such a pixel, also when
    [ink_pixels.any()] is false because all of them are black: the skipped
    assignment leaves the 0 that the mean would be.  On a [uint8] gray
    image the pressure lies in [0, 255]. *)
Theorem pressure_is_mean_ink (gray_image binary_image : image)
    (lines : list image) (σ : heap) :
  findContours binary_image ≠ [] →
  ∃ features σ' fv,
    extract_graphological_features gray_image binary_image lines σ =
      inr (features, σ') ∧
    σ' !! features = Some (fdict fv) ∧
    (mask_select gray_image binary_image ≠ [] →
     pressure fv == Np.mean_of (mask_select gray_image binary_image)) ∧
    (mask_select gray_image binary_image = [] → pressure fv = 0) ∧
    (uint8_image gray_image → 0 <= pressure fv ∧ pressure fv <= 255).
Proof.
  intros Hc%is_empty_false.
  destruct (extract_returns gray_image binary_image lines σ)
    as (features & σ' & Hrun & Hfd).
  exists features, σ', (features_of gray_image binary_image).
  split; [ done | ]. split; [ done | ].
  unfold features_of. rewrite Hc. cbv zeta. cbn [pressure].
  unfold pressure_of. cbv zeta.
  set (ink := mask_select gray_image binary_image).
  split; [ | split ].
  - intros Hink. destruct (Np.any ink) eqn:Hany; [ reflexivity | ].
    symmetry. by apply mean_of_zero_sum, any_false_sum.
  - intros ->. reflexivity.
  - intros Hu. destruct (Np.any ink) eqn:Hany; [ | split; lra ].
    apply mean_of_bounds; [ by apply any_nonempty | ].
    by apply mask_select_Forall.
Qed.

Lemma retained_heights (cs : list contour) :
  Forall (λ a, 10 < a)
    (map inject_Z (map (λ c, bh (boundingRect c)) (List.filter retained cs))).
Proof.
  rewrite !Forall_map. apply Forall_forall. intros c Hc.
  apply list_elem_of_In, filter_In in Hc as [_ Hc].
  unfold retained in Hc. apply andb_true_iff in Hc as [_ Hh].
  apply Z.ltb_lt in Hh. change 10 with (inject_Z 10). by rewrite <- Zlt_Qlt.
Qed.

(** X6.  The letter size is either the default 0 or above 10, the noise
    threshold of the size filter; it is above 10 as soon as the mask has
    contours and some word box passes the filter. *)
Theorem letter_size_above_noise (gray_image binary_image : image)
    (lines : list image) (σ : heap) :
  ∃ features σ' fv,
    extract_graphological_features gray_image binary_image lines σ =
      inr (features, σ') ∧
    σ' !! features = Some (fdict fv) ∧
    (letter_size fv = 0 ∨ 10 < letter_size fv) ∧
    (findContours binary_image ≠ [] →
     List.filter retained (findContours (dilate binary_image)) ≠ [] →
     10 < letter_size fv).
Proof.
  destruct (extract_returns gray_image binary_image lines σ)
    as (features & σ' & Hrun & Hfd).
  exists features, σ', (features_of gray_image binary_image).
  split; [ done | ]. split; [ done | ].
  unfold features_of, words_of. rewrite scan_words_spec.
  cbn [heights]. set (cs := findContours (dilate binary_image)).
  pose proof (retained_heights cs) as Hh.
  destruct (Np.is_empty (findContours binary_image)) eqn:Hc.
  - split; [ by left | ]. intros Hne%is_empty_false. congruence.
  - cbv zeta. cbn [letter_size]. split.
    + apply (median_or_zero_cases (λ a, 10 < a)); [ | done ].
      intros a b. apply midpoint_above.
    + intros _ Hret. unfold median_or_zero.
      rewrite !is_empty_map, (is_empty_false _ Hret).
      apply (median_of_convex (λ a, 10 < a)); [ | | done ].
      * intros a b. apply midpoint_above.
      * by rewrite !is_empty_map, (is_empty_false _ Hret).
Qed.

Lemma adjacent_gaps_lookup (line : list bbox) (i : nat) (b1 b2 : bbox) :
  line !! i = Some b1 → line !! (i + 1)%nat = Some b2 →
  adjacent_gaps line !! i = Some (bx b2 - (bx b1 + bw b1))%Z.
Proof.
  intros H1 H2. unfold adjacent_gaps.
  rewrite lookup_zip_with, lookup_tail, H1. cbn.
  rewrite Nat.add_1_r in H2. by rewrite H2.
Qed.

Lemma gap_loop_spec (line : list bbox) (n start : nat) (gaps : list Z) :
  (start + n < length line)%nat →
  fold_e (gap_step line) gaps (seq start n) =
  inr (gaps ++ List.filter (λ gap, (0 <? gap)%Z)
                 (take n (drop start (adjacent_gaps line)))).
Proof.
  revert start gaps. induction n as [|n IH]; intros start gaps Hn.
  - cbn. by rewrite app_nil_r.
  - destruct (index_lt line start) as (b1 & Hi1 & Hl1); [ lia | ].
    destruct (index_lt line (start + 1)) as (b2 & Hi2 & Hl2); [ lia | ].
    pose proof (adjacent_gaps_lookup line start b1 b2 Hl1 Hl2) as Hgap.
    assert (Hstep : gap_step line gaps start =
                    inr (if (0 <? bx b2 - (bx b1 + bw b1))%Z
                         then gaps ++ [(bx b2 - (bx b1 + bw b1))%Z]
                         else gaps)).
    { unfold gap_step. by rewrite Hi1, Hi2. }
    cbn [seq fold_e]. rewrite (bind_e_inr _ _ _ Hstep), IH by lia.
    rewrite (drop_S _ _ _ Hgap). cbn [take List.filter].
    destruct (0 <? _)%Z; by rewrite <- ?app_assoc.
Qed.

Lemma adjacent_gaps_length (line : list bbox) :
  length (adjacent_gaps line) = (length line - 1)%nat.
Proof.
  unfold adjacent_gaps. rewrite length_zip_with.
  destruct line; cbn [tail length]; lia.
Qed.

Lemma gap_loop_all (line : list bbox) (gaps : list Z) :
  line ≠ [] →
  fold_e (gap_step line) gaps (seq 0 (length line - 1)) =
  inr (gaps ++ positive_gaps line).
Proof.
  intros Hne. rewrite gap_loop_spec
    by (destruct line; [ done | simpl; lia ]).
  unfold positive_gaps. rewrite drop_0, <- adjacent_gaps_length.
  by rewrite firstn_all.
Qed.

Lemma line_step_closed_form (s : LineStats) (line : list bbox) :
  line_step s line =
  inr {| left_margins := left_margins s ++ left_margins (line_samples [line]);
         word_gaps := word_gaps s ++ word_gaps (line_samples [line]);
         baseline_slopes :=
           baseline_slopes s ++ baseline_slopes (line_samples [line]);
         line_y_coords :=
           line_y_coords s ++ line_y_coords (line_samples [line]) |}.
Proof.
  unfold line_step, line_samples, first_xs, qualifying.
  cbn [flat_map List.filter left_margins word_gaps baseline_slopes
       line_y_coords].
  destruct line as [|b0 rest].
  { destruct s. cbn. by rewrite !app_nil_r. }
  cbn [Np.is_empty index lookup list_lookup mbind E_bind mret E_ret].
  rewrite gap_loop_all by done. rewrite !app_nil_r. rewrite !length_map.
  fold (points_x (b0 :: rest)). fold (points_y (b0 :: rest)).
  destruct (1 <? length (b0 :: rest))%nat eqn:Hlen.
  - apply Nat.ltb_lt in Hlen.
    rewrite polyfit1_total
      by (unfold points_x, points_y; rewrite !length_map; lia).
    rewrite median_total
      by (apply is_empty_length; unfold points_y; rewrite length_map; lia).
    reflexivity.
  - cbn [map]. by rewrite !app_nil_r.
Qed.

Lemma line_samples_cons (line : list bbox) (ls : list (list bbox)) :
  line_samples (line :: ls) =
  {| left_margins :=
       left_margins (line_samples [line]) ++ left_margins (line_samples ls);
     word_gaps :=
       word_gaps (line_samples [line]) ++ word_gaps (line_samples ls);
     baseline_slopes :=
       baseline_slopes (line_samples [line]) ++
       baseline_slopes (line_samples ls);
     line_y_coords :=
       line_y_coords (line_samples [line]) ++
       line_y_coords (line_samples ls) |}.
Proof.
  unfold line_samples, first_xs, qualifying.
  cbn [flat_map List.filter left_margins word_gaps baseline_slopes
       line_y_coords].
  rewrite !app_nil_r.
  destruct (1 <? length line)%nat; cbn [map app]; reflexivity.
Qed.

Lemma line_loop_closed_form (ls : list (list bbox)) (s : LineStats) :
  fold_e line_step s ls =
  inr {| left_margins := left_margins s ++ left_margins (line_samples ls);
         word_gaps := word_gaps s ++ word_gaps (line_samples ls);
         baseline_slopes :=
           baseline_slopes s ++ baseline_slopes (line_samples ls);
         line_y_coords := line_y_coords s ++ line_y_coords (line_samples ls)
      |}.
Proof.
  revert s. induction ls as [|line ls IH]; intros s.
  - destruct s. cbn. by rewrite !app_nil_r.
  - cbn [fold_e]. rewrite line_step_closed_form.
    cbn [mbind E_bind]. rewrite IH, (line_samples_cons line ls).
    cbn [left_margins word_gaps baseline_slopes line_y_coords].
    by rewrite <- !app_assoc.
Qed.

Lemma stats_of_closed_form (binary_image : image) :
  stats_of binary_image = line_samples (lines_of binary_image).
Proof.
  unfold stats_of. rewrite line_loop_closed_form. cbn [value_or no_stats app].
  by destruct (line_samples _).
Qed.


Lemma positive_gaps_positive (ls : list (list bbox)) :
  Forall (λ a, 0 < a) (map inject_Z (flat_map positive_gaps ls)).
Proof.
  rewrite Forall_map. apply Forall_forall. intros gap Hgap.
  apply list_elem_of_In, in_flat_map in Hgap as (line & _ & Hgap).
  unfold positive_gaps in Hgap. apply filter_In in Hgap as [_ Hgap].
  apply Z.ltb_lt in Hgap. change 0 with (inject_Z 0). by rewrite <- Zlt_Qlt.
Qed.

(** X8.  The word spacing is never negative: it is the default 0 or
    strictly positive, whatever the boxes, because only positive gaps enter
    the sample (overlapping boxes contribute nothing). *)
Theorem word_spacing_not_negative (gray_image binary_image : image)
    (lines : list image) (σ : heap) :
  ∃ features σ' fv,
    extract_graphological_features gray_image binary_image lines σ =
      inr (features, σ') ∧
    σ' !! features = Some (fdict fv) ∧
    (word_spacing fv = 0 ∨ 0 < word_spacing fv) ∧
    Forall (λ gap, (0 < gap)%Z) (word_gaps (stats_of binary_image)).
Proof.
  destruct (extract_returns gray_image binary_image lines σ)
    as (features & σ' & Hrun & Hfd).
  exists features, σ', (features_of gray_image binary_image).
  split; [ done | ]. split; [ done | ].
  rewrite stats_of_closed_form. cbn [line_samples word_gaps]. split.
  - unfold features_of.
    destruct (Np.is_empty (findContours binary_image)); [ by left | ].
    cbv zeta. cbn [word_spacing].
    destruct (negb _); [ | by left ].
    rewrite stats_of_closed_form. cbn [line_samples word_gaps].
    apply (median_or_zero_cases (λ a, 0 < a)).
    + intros a b. apply midpoint_above.
    + apply positive_gaps_positive.
  - apply Forall_forall. intros gap Hgap.
    apply list_elem_of_In, in_flat_map in Hgap as (line & _ & Hgap).
    unfold positive_gaps in Hgap. apply filter_In in Hgap as [_ Hgap].
    by apply Z.ltb_lt in Hgap.
Qed.

End ExtractorFactsProofs.

(** ** Grouping words into lines *)

Lemma group_word_perm (g : Grouping) (b : bbox) :
  concat (lines_of_words (group_word g b)) ++ current_line (group_word g b)
  ≡ₚ (concat (lines_of_words g) ++ current_line g) ++ [b].
Proof.
  destruct b as [[[x y] w] h]. rewrite group_word_rule.
  destruct (7 * h <? _)%Z; cbn [lines_of_words current_line].
  - rewrite concat_app. cbn [concat]. rewrite app_nil_r.
    by rewrite sort_by_perm.
  - by rewrite app_assoc.
Qed.

Lemma group_fold_perm (bs : list bbox) (g : Grouping) :
  concat (lines_of_words (fold_left group_word bs g)) ++
  current_line (fold_left group_word bs g)
  ≡ₚ (concat (lines_of_words g) ++ current_line g) ++ bs.
Proof.
  revert g. induction bs as [|b bs IH]; intros g; cbn [fold_left].
  - by rewrite app_nil_r.
  - rewrite IH, group_word_perm. by rewrite <- app_assoc.
Qed.

Lemma sort_line_left_to_right (line : list bbox) :
  left_to_right (Np.sort_by le_x line).
Proof. apply (sort_by_key_sorted bx). Qed.

Lemma group_fold_sorted (bs : list bbox) (g : Grouping) :
  Forall left_to_right (lines_of_words g) →
  Forall left_to_right (lines_of_words (fold_left group_word bs g)).
Proof.
  revert g. induction bs as [|b bs IH]; intros g Hg; cbn [fold_left];
    [ done | ].
  apply IH. destruct b as [[[x y] w] h]. rewrite group_word_rule.
  destruct (7 * h <? _)%Z; cbn [lines_of_words]; [ | done ].
  apply Forall_app. split; [ done | ].
  constructor; [ apply sort_line_left_to_right | constructor ].
Qed.

Lemma sort_by_not_nil {A} (le : A → A → bool) (l : list A) :
  l ≠ [] → Np.sort_by le l ≠ [].
Proof.
  intros Hl Hs. apply Hl. apply length_zero_iff_nil.
  by rewrite <- (sort_by_length le), Hs.
Qed.

Lemma group_fold_nonempty (bs : list bbox) (g : Grouping) :
  Forall (λ line, line ≠ []) (lines_of_words g) →
  current_line g ≠ [] →
  Forall (λ line, line ≠ []) (lines_of_words (fold_left group_word bs g)) ∧
  current_line (fold_left group_word bs g) ≠ [].
Proof.
  revert g. induction bs as [|b bs IH]; intros g Hg Hcur; cbn [fold_left];
    [ done | ].
  apply IH; destruct b as [[[x y] w] h]; rewrite group_word_rule;
    destruct (7 * h <? _)%Z; cbn [lines_of_words current_line]; try done.
  - apply Forall_app. split; [ done | ].
    constructor; [ by apply sort_by_not_nil | constructor ].
  - intros Happ. by apply app_eq_nil in Happ as [_ ?].
Qed.

Lemma group_lines_partition (word_bboxes : list bbox) :
  word_bboxes ≠ [] →
  ∃ ls,
    group_lines word_bboxes = inr ls ∧
    concat ls ≡ₚ word_bboxes ∧
    Forall left_to_right ls ∧
    (∀ b, head word_bboxes = Some b → (0 ≤ bh b)%Z →
          Forall (λ line, line ≠ []) ls).
Proof.
  intros Hne. destruct word_bboxes as [|b0 bs]; [ done | ].
  eexists. split; [ reflexivity | ].
  set (g0 := {| lines_of_words := []; current_line := [];
                current_y := by_ b0 |}).
  split; [ | split ].
  - rewrite concat_app. cbn [concat]. rewrite app_nil_r, sort_by_perm.
    by rewrite group_fold_perm.
  - apply Forall_app. split.
    + apply group_fold_sorted. constructor.
    + constructor; [ apply sort_line_left_to_right | constructor ].
  - intros b [= <-] Hh. cbn [fold_left].
    assert (Hfirst : group_word g0 b0 =
                     {| lines_of_words := []; current_line := [b0];
                        current_y := by_ b0 |}).
    { destruct b0 as [[[x y] w] h]. rewrite group_word_rule.
      unfold g0, by_, bh in *. cbn [current_y fst snd] in *.
      rewrite Z.sub_diag.
      destruct (Z.ltb_spec (7 * h) (10 * Z.abs 0)); [ lia | done ]. }
    rewrite Hfirst.
    destruct (group_fold_nonempty bs
                {| lines_of_words := []; current_line := [b0];
                   current_y := by_ b0 |}) as [Hlines Hcur];
      [ constructor | done | ].
    apply Forall_app. split; [ done | ].
    constructor; [ by apply sort_by_not_nil | constructor ].
Qed.

(** X9.  Grouping partitions the words: for a non-empty list of boxes it
    returns lines whose concatenation is a rearrangement of the boxes (no
    word is lost or duplicated), each line in left-to-right order, and,
    when the first box has a non-negative height, no line empty. *)
Theorem lines_partition_words (word_bboxes : list bbox) :
  word_bboxes ≠ [] →
  ∃ ls,
    group_lines word_bboxes = inr ls ∧
    concat ls ≡ₚ word_bboxes ∧
    Forall left_to_right ls ∧
    (∀ b, head word_bboxes = Some b → (0 ≤ bh b)%Z →
          Forall (λ line, line ≠ []) ls).
Proof. apply group_lines_partition. Qed.

Lemma lines_partition_words_witness :
  ∃ ls,
    group_lines two_lines = inr ls ∧
    concat ls ≡ₚ two_lines ∧
    Forall left_to_right ls ∧
    (∀ b, head two_lines = Some b → (0 ≤ bh b)%Z →
          Forall (λ line, line ≠ []) ls).
Proof. apply lines_partition_words. discriminate. Defined.


Section LeftMargin.
Context {V : Vision}.




End LeftMargin.

(** ** The radar chart *)

Import Chart.

Lemma keys_at (σ : heap) (l : loc) (d : dict) :
  σ !! l = Some d → keys l σ = inr (dkeys d, σ).
Proof. intros Hl. unfold keys. by rewrite Hl. Qed.

Lemma values_at (σ : heap) (l : loc) (d : dict) :
  σ !! l = Some d → values l σ = inr (dvalues d, σ).
Proof. intros Hl. unfold values. by rewrite Hl. Qed.

Lemma create_spider_chart_run (σ : heap) (l : loc) (d : dict) :
  σ !! l = Some d →
  create_spider_chart l σ = lift (draw (dkeys d) (dvalues d)) σ.
Proof.
  intros Hl. unfold create_spider_chart.
  erewrite bind_inr by (by apply keys_at).
  erewrite bind_inr by (by apply values_at).
  reflexivity.
Qed.

Lemma draw_six (k1 k2 k3 k4 k5 k6 : string) (ks : list string)
    (stats : list value) :
  ∃ fig,
    draw (k1 :: k2 :: k3 :: k4 :: k5 :: k6 :: ks) stats = inr fig ∧
    polygon_radii fig = stats ++ take 1 stats ∧
    polygon_angles fig =
      linspace_turn (6 + length ks) ++ take 1 (linspace_turn (6 + length ks)) ∧
    xticks fig = linspace_turn (6 + length ks) ∧
    ylim fig = (0, 1.2) ∧
    map tick_text (xticklabels fig) =
      k1 :: k2 :: k3 :: k4 :: k5 :: k6 :: ks ∧
    take 6 (xticklabels fig) =
      zip_with (λ k t, {| tick_text := k;
                          horizontalalignment := horizontalalignment t;
                          verticalalignment := verticalalignment t |})
        [k1; k2; k3; k4; k5; k6] trait_ticks.
Proof.
  eexists. split; [ reflexivity | ].
  cbn [polygon_radii polygon_angles xticks ylim xticklabels length Nat.add].
  repeat split.
  - simpl. do 6 f_equal. rewrite map_map. simpl. apply map_id.
Qed.

(** X11.  On a profile dict with at least six entries the chart is built
    and the heap is left as it was: the polygon is closed (its last point
    repeats the first) and has one point more than the dict has entries,
    the radial range is [0, 1.2], the tick texts are the keys of the dict in
    their order, and the first six ticks get the alignments left, bottom,
    bottom, right, top, top. *)
Theorem chart_of_six_entries (σ : heap) (l : loc) (d : dict) :
  σ !! l = Some d →
  (6 ≤ length d)%nat →
  ∃ fig,
    create_spider_chart l σ = inr (fig, σ) ∧
    length (polygon_radii fig) = S (length d) ∧
    length (polygon_angles fig) = S (length d) ∧
    last (polygon_radii fig) = head (polygon_radii fig) ∧
    last (polygon_angles fig) = head (polygon_angles fig) ∧
    head (polygon_radii fig) = head (dvalues d) ∧
    ylim fig = (0, 1.2) ∧
    map tick_text (xticklabels fig) = dkeys d ∧
    map horizontalalignment (take 6 (xticklabels fig)) =
      [Some "left"; None; None; Some "right"; None; None] ∧
    map verticalalignment (take 6 (xticklabels fig)) =
      [None; Some "bottom"; Some "bottom"; None; Some "top"; Some "top"].
Proof.
  intros Hl Hlen. rewrite (create_spider_chart_run σ l d Hl).
  destruct d as [|[k1 v1] [|[k2 v2] [|[k3 v3] [|[k4 v4] [|[k5 v5]
                [|[k6 v6] d]]]]]]; cbn [length] in Hlen; try lia.
  cbn [dkeys dvalues map fst snd].
  destruct (draw_six k1 k2 k3 k4 k5 k6 (map fst d)
              (v1 :: v2 :: v3 :: v4 :: v5 :: v6 :: map snd d))
    as (fig & -> & Hr & Ha & _ & Hy & Ht & Hal).
  exists fig. split; [ reflexivity | ].
  rewrite Hr, Ha, Hy, Ht, Hal, length_map.
  cbn [take linspace_turn seq map Nat.add].
  rewrite !length_app. cbn [length]. rewrite !length_map, length_seq.
  rewrite !last_snoc. cbn [head app].
  repeat split; lia.
Qed.

(** X12.  On a profile dict with fewer than six entries the chart function
    raises [IndexError]: it addresses the tick labels 0 to 5. *)
Theorem chart_needs_six_entries (σ : heap) (l : loc) (d : dict) :
  σ !! l = Some d →
  (length d < 6)%nat →
  create_spider_chart l σ = inl IndexError.
Proof.
  intros Hl Hlen. rewrite (create_spider_chart_run σ l d Hl).
  destruct d as [|[k1 v1] [|[k2 v2] [|[k3 v3] [|[k4 v4] [|[k5 v5]
                [|[k6 v6] d]]]]]]; cbn [length] in Hlen; try lia;
    reflexivity.
Qed.

Lemma chart_of_six_entries_witness :
  ∃ fig,
    create_spider_chart 1%positive
      {[ 1%positive := Scorer.quantitative_init ]} =
      inr (fig, {[ 1%positive := Scorer.quantitative_init ]}) ∧
    length (polygon_radii fig) = S (length Scorer.quantitative_init) ∧
    length (polygon_angles fig) = S (length Scorer.quantitative_init) ∧
    last (polygon_radii fig) = head (polygon_radii fig) ∧
    last (polygon_angles fig) = head (polygon_angles fig) ∧
    head (polygon_radii fig) = head (dvalues Scorer.quantitative_init) ∧
    ylim fig = (0, 1.2) ∧
    map tick_text (xticklabels fig) = dkeys Scorer.quantitative_init ∧
    map horizontalalignment (take 6 (xticklabels fig)) =
      [Some "left"; None; None; Some "right"; None; None] ∧
    map verticalalignment (take 6 (xticklabels fig)) =
      [None; Some "bottom"; Some "bottom"; None; Some "top"; Some "top"].
Proof.
  apply chart_of_six_entries; [ reflexivity | simpl; lia ].
Defined.

Lemma chart_needs_six_entries_witness :
  create_spider_chart 1%positive {[ 1%positive := five_traits ]} =
  inl IndexError.
Proof.
  apply (chart_needs_six_entries _ _ five_traits);
    [ reflexivity | simpl; lia ].
Defined.

Lemma clip_inside_plot (x : Q) :
  0 <= Num.clip x 0.1 1.0 ∧ Num.clip x 0.1 1.0 <= 1.2.
Proof. destruct (clip_bounds x). split; lra. Qed.

(** X13.  The chart of a profile the scorer returns is always built.  Its
    ticks are the six traits in the order Sociability, Focus, Intensity,
    Optimism, Discipline, Spontaneity with the alignments the comments of
    the function give them, at the angles 0, pi/3, 2pi/3, pi, 4pi/3 and
    5pi/3 (Sociability at 0 degrees, Optimism at 180); the polygon runs
    through the six scores and back to Sociability, and every radius lies
    inside the radial range of the plot. *)
Theorem profile_chart_matches_comments (σ : heap) (features : loc)
    (fv : FeatureVector) :
  σ !! features = Some (fdict fv) →
  ∃ fig σ',
    profile_chart features σ = inr (fig, σ') ∧
    xticklabels fig = trait_ticks ∧
    Forall2 Qeq (xticks fig) [0; 1 / 3; 2 / 3; 1; 4 / 3; 5 / 3] ∧
    polygon_radii fig =
      map VNum [ Sociability (scores fv); Focus (scores fv);
                 Intensity (scores fv); Optimism (scores fv);
                 Discipline (scores fv); Spontaneity (scores fv);
                 Sociability (scores fv) ] ∧
    (∀ v, v ∈ polygon_radii fig →
          ∃ x, v = VNum x ∧ (ylim fig).1 <= x ∧ x <= (ylim fig).2).
Proof.
  intros Hr. destruct (fresh_pair σ quantitative_init) as (Hq & Hd & Hqd).
  unfold profile_chart.
  erewrite bind_inr by (by apply get_personality_profile_run).
  cbn [fst].
  erewrite create_spider_chart_run by (by apply frame_lookup_q).
  eexists _, _. split; [ reflexivity | ].
  cbn [xticklabels xticks polygon_radii ylim fst snd].
  split; [ reflexivity | ].
  split; [ repeat constructor | ].
  split; [ reflexivity | ].
  intros v Hv. cbn in Hv.
  repeat (apply elem_of_cons in Hv as [-> | Hv];
          [ eexists; split; [ reflexivity | apply clip_inside_plot ] | ]).
  by apply elem_of_nil in Hv.
Qed.

Lemma profile_chart_matches_comments_witness :
  ∃ fig σ',
    profile_chart 1%positive {[ 1%positive := fdict scenario_features ]} =
      inr (fig, σ') ∧
    xticklabels fig = trait_ticks ∧
    Forall2 Qeq (xticks fig) [0; 1 / 3; 2 / 3; 1; 4 / 3; 5 / 3] ∧
    polygon_radii fig =
      map VNum [ Sociability (scores scenario_features);
                 Focus (scores scenario_features);
                 Intensity (scores scenario_features);
                 Optimism (scores scenario_features);
                 Discipline (scores scenario_features);
                 Spontaneity (scores scenario_features);
                 Sociability (scores scenario_features) ] ∧
    (∀ v, v ∈ polygon_radii fig →
          ∃ x, v = VNum x ∧ (ylim fig).1 <= x ∧ x <= (ylim fig).2).
Proof.
  apply (profile_chart_matches_comments _ _ scenario_features). reflexivity.
Defined.

(** ** Preparing the image *)

Import Preprocess.

Lemma crop_rows (gray : image) (x y w h : Z) :
  (length (crop gray (x, y, w, h)) ≤ Z.to_nat h)%nat ∧
  Forall (λ row, (length row ≤ Z.to_nat w)%nat) (crop gray (x, y, w, h)).
Proof.
  unfold crop. rewrite length_map, length_take. split; [ lia | ].
  rewrite Forall_map. apply Forall_forall. intros row _.
  cbn beta. rewrite length_take. lia.
Qed.

Section PreprocessProofs.
Context {V : Vision} {I : Imaging}.

Lemma crop_loop (gray : image) (bs : list bbox) (acc : list image) :
  fold_left (λ (lines : list image) (b : bbox),
               let '(x, y, w, h) := b in
               if (10 <? h)%Z && (50 <? w)%Z
               then lines ++ [crop gray (x, y, w, h)]
               else lines) bs acc =
  acc ++ map (crop gray) (List.filter line_sized bs).
Proof.
  revert acc. induction bs as [|[[[x y] w] h] bs IH]; intros acc;
    cbn [fold_left List.filter].
  - by rewrite app_nil_r.
  - rewrite IH. unfold line_sized at 2, bh, bw. cbn [fst snd].
    destruct ((10 <? h)%Z && (50 <? w)%Z); cbn [map];
      by rewrite <- ?app_assoc.
Qed.

Lemma filter_StronglySorted {A} (R : A → A → Prop) (f : A → bool)
    (l : list A) :
  StronglySorted R l → StronglySorted R (List.filter f l).
Proof.
  induction 1 as [|a l Hl IH Ha]; cbn [List.filter]; [ constructor | ].
  destruct (f a); [ | done ]. constructor; [ done | ].
  apply Forall_forall. intros b Hb.
  apply list_elem_of_In, filter_In in Hb as [Hb _].
  rewrite Forall_forall in Ha. by apply Ha, list_elem_of_In.
Qed.

(** X14.  [preprocess_for_graphology] returns the gray image, the
    thresholded mask and one crop of the gray image per contour box with
    height above 10 and width above 50, top to bottom: the boxes are in
    non-decreasing [y] order, each is the bounding box of a contour, and
    the crop of a box [(x, y, w, h)] has at most [h] rows of at most [w]
    pixels. *)
Theorem lines_are_sorted_crops (image_array : color_image) :
  let gray := cvtColor_gray image_array in
  let thresh_inv := adaptiveThreshold_inv (GaussianBlur gray) in
  let boxes := line_boxes image_array in
  preprocess_for_graphology image_array =
    (gray, thresh_inv, map (crop gray) boxes) ∧
  StronglySorted (λ a b, (by_ a ≤ by_ b)%Z) boxes ∧
  Forall (λ b, (10 < bh b)%Z ∧ (50 < bw b)%Z ∧
               b ∈ map boundingRect (findContours (dilate_lines thresh_inv)))
         boxes ∧
  Forall2 (λ line b,
             (length line ≤ Z.to_nat (bh b))%nat ∧
             Forall (λ row, (length row ≤ Z.to_nat (bw b))%nat) line)
          (map (crop gray) boxes) boxes.
Proof.
  intros gray thresh_inv boxes. split; [ | split; [ | split ] ].
  - unfold preprocess_for_graphology. cbv zeta. by rewrite crop_loop.
  - apply filter_StronglySorted, (sort_by_key_sorted by_).
  - apply Forall_forall. intros b Hb.
    apply list_elem_of_In, filter_In in Hb as [Hb Hsize].
    unfold line_sized in Hsize. apply andb_true_iff in Hsize as [Hh Hw].
    apply Z.ltb_lt in Hh, Hw. split; [ done | ]. split; [ done | ].
    apply list_elem_of_In in Hb. by rewrite sort_by_perm in Hb.
  - apply Forall2_fmap_l, Forall_Forall2_diag, Forall_forall.
    intros [[[x y] w] h] _. apply crop_rows.
Qed.

(** X15.  A page whose thresholded mask has no contour goes through the
    whole pipeline without error: every feature is 0, and the profile is
    Sociability 0.4, Focus 0.9, Intensity 0.8, Optimism 0.5, Discipline 1.0
    and Spontaneity 0.9, described as controlled, focused, intense, steady
    and spontaneous. *)
Theorem blank_page_profile (img_array : color_image) (σ : heap) :
  findContours
    (adaptiveThreshold_inv (GaussianBlur (cvtColor_gray img_array))) = [] →
  ∃ f q d σ' t,
    analyse_image img_array σ = inr ((f, q, d), σ') ∧
    σ' !! f = Some (fdict zero_features) ∧
    σ' !! q = Some (qdict t) ∧
    Sociability t == 0.4 ∧ Focus t == 0.9 ∧ Intensity t == 0.8 ∧
    Optimism t == 0.5 ∧ Discipline t == 1.0 ∧ Spontaneity t == 0.9 ∧
    σ' !! d = Some blank_page_description.
Proof.
  intros Hnone. unfold analyse_image, preprocess_for_graphology. cbv zeta.
  set (gray := cvtColor_gray img_array) in *.
  set (bin := adaptiveThreshold_inv (GaussianBlur gray)) in *.
  match goal with
  | |- context [App.analyse gray bin ?lines] =>
      destruct (analyse_run gray bin lines σ)
        as (f & q & d & Hrun & Hf & Hq & Hd & Hfq & Hfd & Hqd)
  end.
  assert (Hzero : features_of gray bin = zero_features).
  { unfold features_of. by rewrite Hnone. }
  rewrite Hzero in Hrun.
  eexists f, q, d, _, (scores zero_features).
  split; [ exact Hrun | ].
  split; [ by simplify_map_eq | ].
  split; [ by simplify_map_eq | ].
  do 6 (split; [ reflexivity | ]).
  by simplify_map_eq.
Qed.

End PreprocessProofs.

(** ** Preparing the image for print OCR *)

Import Ocr.

Section OcrProofs.
Context {I : Imaging} {L : OcrLibrary}.

Lemma deskew_unbound (gray : image) : ∃ e, deskew gray None = inl e.
Proof.
  unfold deskew. destruct (bitwise_not gray) as [e|inverted];
    [ by exists e | ].
  cbn [mbind T_bind]. destruct (threshold_otsu inverted) as [e|thresh];
    [ by exists e | ].
  by eexists.
Qed.

(** X16.  [preprocess_for_ocr] never de-skews.  The [try] block reads the
    local variable [w] in the arguments of [cv2.HoughLinesP] before [w] is
    assigned, so it always ends in the [except] handler: whatever the
    library calls do, one message is printed, the gray image is not
    rotated, and the result is the adaptive threshold of the blurred gray
    image.  When [bitwise_not] and [threshold] succeed the exception is the
    [UnboundLocalError] for [w]. *)
Theorem ocr_never_deskews (image_array : color_image) :
  let gray := cvtColor_gray image_array in
  (preprocess_for_ocr image_array).1 =
    adaptiveThreshold_ocr (GaussianBlur gray) ∧
  (∃ e, (preprocess_for_ocr image_array).2 = [e]) ∧
  (∀ inverted thresh,
     bitwise_not gray = inr inverted →
     threshold_otsu inverted = inr thresh →
     (preprocess_for_ocr image_array).2 = [UnboundLocalError "w"]).
Proof.
  intros gray. unfold preprocess_for_ocr. fold gray.
  destruct (deskew_unbound gray) as [e He]. rewrite He. cbn [fst snd].
  split; [ reflexivity | ]. split; [ by exists e | ].
  intros inverted thresh Hinv Hthresh. unfold deskew in He.
  rewrite Hinv in He. cbn [mbind T_bind] in He. rewrite Hthresh in He.
  cbn in He. by injection He as <-.
Qed.

End OcrProofs.

(** ** The further theorems at concrete inputs *)

Lemma pressure_is_mean_ink_witness :
  ∃ features σ' fv,
    extract_graphological_features (V := OneBlob.vision)
      OneBlob.block OneBlob.block [] ∅ = inr (features, σ') ∧
    σ' !! features = Some (fdict fv) ∧
    (mask_select OneBlob.block OneBlob.block ≠ [] →
     pressure fv == Np.mean_of (mask_select OneBlob.block OneBlob.block)) ∧
    (mask_select OneBlob.block OneBlob.block = [] → pressure fv = 0) ∧
    (uint8_image OneBlob.block → 0 <= pressure fv ∧ pressure fv <= 255).
Proof.
  apply (pressure_is_mean_ink (V := OneBlob.vision)).
  vm_compute. discriminate.
Defined.



Lemma blank_page_profile_witness :
  ∃ f q d σ' t,
    analyse_image (V := OneBlob.vision) (I := plain_imaging)
      OneBlob.blank ∅ = inr ((f, q, d), σ') ∧
    σ' !! f = Some (fdict zero_features) ∧
    σ' !! q = Some (qdict t) ∧
    Sociability t == 0.4 ∧ Focus t == 0.9 ∧ Intensity t == 0.8 ∧
    Optimism t == 0.5 ∧ Discipline t == 1.0 ∧ Spontaneity t == 0.9 ∧
    σ' !! d = Some blank_page_description.
Proof.
  apply (blank_page_profile (V := OneBlob.vision) (I := plain_imaging)).
  reflexivity.
Defined.
